(** * strawberryfields.gbs.data: the Dataset access contract

    A shallow embedding of the [Dataset] class of
    [strawberryfields/gbs/data.py] (indexing, slicing, iteration with the
    cursor stored in the object, aggregate counts) together with the
    pieces of Python and SciPy the class relies on: [isinstance],
    [slice], [slice.indices], [range], and row access and axis sums of a
    sparse matrix. *)

From Stdlib Require Import ZArith List Lia SpecFloat.
From stdpp Require Import base option list gmap strings.

Open Scope Z_scope.

(** ** Python values *)

(** The objects that can reach [Dataset.__getitem__] as a key, or sit in a
    class body as a constant.  Integers are unbounded; a float is an
    IEEE-754 binary64 value. *)
#[warnings="-register-all"]
Inductive pyobj : Type :=
| PyNone
| PyInt (z : Z)
| PyBool (b : bool)
| PyFloat (x : spec_float)
| PyStr (s : string)
| PySlice (start stop step : pyobj)
| PyTuple (items : list pyobj).

(** The built-in types of those objects ([Tint] is Python's [int], and so
    on). *)
Inductive pytype : Type :=
| Tnone | Tint | Tbool | Tfloat | Tstr | Tslice | Ttuple.

Definition pytype_eqb (a b : pytype) : bool :=
  match a, b with
  | Tnone, Tnone | Tint, Tint | Tbool, Tbool | Tfloat, Tfloat
  | Tstr, Tstr | Tslice, Tslice | Ttuple, Ttuple => true
  | _, _ => false
  end.

Definition type_of (o : pyobj) : pytype :=
  match o with
  | PyNone => Tnone
  | PyInt _ => Tint
  | PyBool _ => Tbool
  | PyFloat _ => Tfloat
  | PyStr _ => Tstr
  | PySlice _ _ _ => Tslice
  | PyTuple _ => Ttuple
  end.

(** [bool] is a subclass of [int]; the other built-in types listed here are
    unrelated to each other. *)
Definition issubclass (t c : pytype) : bool :=
  pytype_eqb t c || (pytype_eqb t Tbool && pytype_eqb c Tint).

(** [isinstance(o, (c1, ..., cn))] *)
Definition isinstance (o : pyobj) (classes : list pytype) : bool :=
  existsb (issubclass (type_of o)) classes.

(** The integer an instance of [int] stands for ([True] is 1, [False] is 0). *)
Definition int_value (o : pyobj) : option Z :=
  match o with
  | PyInt z => Some z
  | PyBool b => Some (Z.b2z b)
  | _ => None
  end.

(** The members of an instance of [tuple]. *)
Definition tuple_items (o : pyobj) : option (list pyobj) :=
  match o with
  | PyTuple items => Some items
  | _ => None
  end.

(** ** Exceptions and results *)

Inductive exn : Type :=
| TypeError
| IndexError
| ValueError
| StopIteration
| ReferenceError.

Inductive result (A : Type) : Type :=
| Ok (a : A)
| Raise (e : exn).
Arguments Ok {A} a.
Arguments Raise {A} e.

Definition rbind {A B} (r : result A) (k : A -> result B) : result B :=
  match r with
  | Ok a => k a
  | Raise e => Raise e
  end.

(** [[f(x) for x in xs]] for an [f] that may raise: the first exception
    aborts the comprehension. *)
Fixpoint collect {A B} (f : A -> result B) (xs : list A) : result (list B) :=
  match xs with
  | [] => Ok []
  | x :: xs' =>
      rbind (f x) (fun y => rbind (collect f xs') (fun ys => Ok (y :: ys)))
  end.

(** ** [slice] and [range] *)

(** The call of [slice] on an unpacked argument tuple: one to three
    positional arguments, of any type; any other number is a [TypeError]. *)
Definition slice_new (args : list pyobj) : result pyobj :=
  match args with
  | [stop] => Ok (PySlice PyNone stop PyNone)
  | [start; stop] => Ok (PySlice start stop PyNone)
  | [start; stop; step] => Ok (PySlice start stop step)
  | _ => Raise TypeError
  end.

(** A slice member is [None] or an object with [__index__]. *)
Definition slice_index (o : pyobj) : result (option Z) :=
  match o with
  | PyNone => Ok None
  | PyInt z => Ok (Some z)
  | PyBool b => Ok (Some (Z.b2z b))
  | _ => Raise TypeError
  end.

(** Clamping of one explicit bound, as [slice.indices] does it. *)
Definition clamp_bound (lower upper length v : Z) : Z :=
  if v <? 0 then
    let v' := v + length in
    if v' <? lower then lower else v'
  else
    if v >? upper then upper else v.

(** [slice(start, stop, step).indices(length)] *)
Definition slice_indices (start stop step : pyobj) (length : Z)
  : result (Z * Z * Z) :=
  if length <? 0 then Raise ValueError else
  rbind (slice_index step) (fun ostep =>
  let st := default 1 ostep in
  if st =? 0 then Raise ValueError else
  let step_is_negative := st <? 0 in
  let lower := if step_is_negative then -1 else 0 in
  let upper := if step_is_negative then length + -1 else length in
  rbind (slice_index start) (fun ostart =>
  let s := match ostart with
           | None => if step_is_negative then upper else lower
           | Some v => clamp_bound lower upper length v
           end in
  rbind (slice_index stop) (fun ostop =>
  let e := match ostop with
           | None => if step_is_negative then lower else upper
           | Some v => clamp_bound lower upper length v
           end in
  Ok (s, e, st)))).

(** Number of elements of [range(start, stop, step)] for a nonzero [step]. *)
Definition range_length (start stop step : Z) : Z :=
  let '(lo, hi, st) :=
    if step >? 0 then (start, stop, step) else (stop, start, - step) in
  if lo >=? hi then 0 else (hi - lo - 1) / st + 1.

(** [list(range(start, stop, step))]; a zero step is a [ValueError]. *)
Definition py_range (start stop step : Z) : result (list Z) :=
  if step =? 0 then Raise ValueError else
  Ok (map (fun k : nat => start + Z.of_nat k * step)
          (seq 0 (Z.to_nat (range_length start stop step)))).

(** ** The sparse sample matrix *)

(** A [scipy.sparse.csr_matrix] of 64-bit signed integers, seen through
    its dense contents: the rows in order, and the number of columns
    (which the rows alone do not determine when there are none).  Sums of
    entries are taken in that 64-bit type and wrap around. *)
Record csr_matrix : Type := mk_csr {
  mrows : list (list Z);
  ncols : nat
}.

(** Every stored row has [ncols] entries. *)
Definition csr_wf (m : csr_matrix) : Prop :=
  Forall (fun r => length r = ncols m) (mrows m).

Definition csr_wfb (m : csr_matrix) : bool :=
  forallb (fun r => Nat.eqb (length r) (ncols m)) (mrows m).

(** [m.shape] *)
Definition shape (m : csr_matrix) : Z * Z :=
  (Z.of_nat (length (mrows m)), Z.of_nat (ncols m)).

(** [m[i]] for an integer [i]: SciPy accepts [-M <= i < M], where [M] is the
    number of rows, counts a negative [i] from the end, and raises
    [IndexError] otherwise.  The result is the 1 x [ncols] matrix of
    that row. *)
Definition csr_getitem (m : csr_matrix) (i : Z) : result csr_matrix :=
  let M := fst (shape m) in
  if (i <? - M) || (i >=? M) then Raise IndexError else
  let i' := if i <? 0 then i + M else i in
  match mrows m !! Z.to_nat i' with
  | Some r => Ok (mk_csr [r] (ncols m))
  | None => Raise IndexError
  end.

(** [m.toarray()]: the dense two-dimensional array. *)
Definition toarray (m : csr_matrix) : list (list Z) := mrows m.

(** [a[0]] on a dense array. *)
Definition first_row {A} (a : list (list A)) : result (list A) :=
  match a with
  | r :: _ => Ok r
  | [] => Raise IndexError
  end.

(** The sum of a list of integers, as mathematics has it. *)
Definition sumZ (l : list Z) : Z := fold_right Z.add 0 l.

(** The 64-bit signed integer congruent to [z] modulo [2^64]. *)
Definition wrap64 (z : Z) : Z := (z + 2 ^ 63) mod 2 ^ 64 - 2 ^ 63.

(** Addition of two 64-bit signed integers, as NumPy does it. *)
Definition add64 (x y : Z) : Z := wrap64 (x + y).

(** The sum of a list of 64-bit signed integers, added up in that type. *)
Definition sum64 (l : list Z) : Z := fold_right add64 0 l.

(** Entrywise sum of two rows. *)
Definition add_rows (r acc : list Z) : list Z := zip_with add64 r acc.

(** [m.sum(axis)]: [axis] 1 (or -1) gives the [M] x 1 matrix of row sums,
    [axis] 0 (or -2) the 1 x [ncols] matrix of column sums, accumulated
    row by row from a zero row; any other integer is a [ValueError].  The
    sums are 64-bit signed integers. *)
Definition csr_sum (m : csr_matrix) (axis : Z) : result (list (list Z)) :=
  if (axis =? 1) || (axis =? -1) then
    Ok (map (fun r => [sum64 r]) (mrows m))
  else if (axis =? 0) || (axis =? -2) then
    Ok [fold_right add_rows (replicate (ncols m) 0) (mrows m)]
  else Raise ValueError.

(** [numpy.array(x).flatten().tolist()] *)
Definition flatten_tolist (a : list (list Z)) : list Z := concat a.

(** ** Dataset classes and objects *)

Inductive dataset_kind : Type := Graph | Molecule.

(** What a concrete leaf class fixes in its body. [T] is present on
    molecule datasets only. *)
Record dataset_class : Type := mk_class {
  kind : dataset_kind;
  _data_filename : string;
  class_n_mean : pyobj;
  class_threshold : bool;
  class_T : option pyobj
}.

Definition Planted : dataset_class :=
  mk_class Graph "planted" (PyInt 8) true None.
Definition TaceAs : dataset_class :=
  mk_class Graph "TACE-AS" (PyInt 8) true None.
Definition PHat : dataset_class :=
  mk_class Graph "p_hat300-1" (PyInt 10) true None.
Definition Mutag0 : dataset_class :=
  mk_class Graph "MUTAG_0" (PyInt 6) false None.
Definition Mutag1 : dataset_class :=
  mk_class Graph "MUTAG_1" (PyInt 6) false None.
Definition Mutag2 : dataset_class :=
  mk_class Graph "MUTAG_2" (PyInt 6) false None.
Definition Mutag3 : dataset_class :=
  mk_class Graph "MUTAG_3" (PyInt 6) false None.
(** [n_mean = 1.56]: the binary64 value nearest to 1.56. *)
Definition Formic : dataset_class :=
  mk_class Molecule "formic"
    (PyFloat (S754_finite false 7025615418697974 (-52))) false
    (Some (PyInt 0)).

(** [Dataset._count = 0], the class attribute read while an instance has
    no [_count] of its own. *)
Definition Dataset__count : Z := 0.

(** The arrays a subclass constructor adds to the instance. *)
Inductive subclass_arrays : Type :=
| NoArrays
| GraphArrays (adj : list (list Z))
| MoleculeArrays (w wp : list spec_float) (Ud : list (list spec_float))
    (delta : list spec_float).

(** The attributes of one dataset instance.  [_count] is [None] until the
    first assignment to [self._count]. *)
Record Dataset : Type := mk_Dataset {
  class_of : dataset_class;
  data : csr_matrix;
  n_samples : Z;
  modes : Z;
  _count : option Z;
  arrays : subclass_arrays
}.

Definition n_mean (d : Dataset) : pyobj := class_n_mean (class_of d).
Definition threshold (d : Dataset) : bool := class_threshold (class_of d).

(** [self._count] as an expression *)
Definition get__count (d : Dataset) : Z := default Dataset__count (_count d).

(** the object after [self._count = v] *)
Definition with__count (d : Dataset) (v : Z) : Dataset :=
  mk_Dataset (class_of d) (data d) (n_samples d) (modes d) (Some v) (arrays d).

Definition with_arrays (d : Dataset) (a : subclass_arrays) : Dataset :=
  mk_Dataset (class_of d) (data d) (n_samples d) (modes d) (_count d) a.

(** [Dataset.__init__]; [samples] is the matrix that
    [scipy.sparse.load_npz(DATA_PATH + self._data_filename + ".npz")]
    returned. *)
Definition Dataset__init__ (cls : dataset_class) (samples : csr_matrix)
  : Dataset :=
  mk_Dataset cls samples (fst (shape samples)) (snd (shape samples))
             None NoArrays.

(** [GraphDataset.__init__]; [A] is the matrix loaded from the
    ["_A.npz"] file. *)
Definition GraphDataset__init__ (cls : dataset_class)
    (samples A : csr_matrix) : Dataset :=
  with_arrays (Dataset__init__ cls samples) (GraphArrays (toarray A)).

(** [MoleculeDataset.__init__]; the four arguments after [samples] are the
    dense contents of the ["_w.npz"], ["_wp.npz"], ["_Ud.npz"] and
    ["_delta.npz"] files. *)
Definition MoleculeDataset__init__ (cls : dataset_class)
    (samples : csr_matrix) (w wp Ud delta : list (list spec_float))
  : result Dataset :=
  rbind (first_row w) (fun w0 =>
  rbind (first_row wp) (fun wp0 =>
  rbind (first_row delta) (fun delta0 =>
  Ok (with_arrays (Dataset__init__ cls samples)
        (MoleculeArrays w0 wp0 Ud delta0))))).

(** ** The object store and the method monad *)

(** Objects live in a store and are passed around by address, so that two
    names for one dataset (the dataset and the iterator obtained from it,
    say) see each other's writes. *)
Definition loc : Type := positive.

Abbreviation heap := (gmap loc Dataset).

(** A method body: it reads and writes the store, and returns or raises.
    The store a raising body leaves behind is kept. *)
Definition M (A : Type) : Type := heap -> result A * heap.

Definition ret {A} (a : A) : M A := fun h => (Ok a, h).
Definition raise {A} (e : exn) : M A := fun h => (Raise e, h).
Definition bind {A B} (m : M A) (k : A -> M B) : M B :=
  fun h => match m h with
           | (Ok a, h') => k a h'
           | (Raise e, h') => (Raise e, h')
           end.
Definition lift {A} (r : result A) : M A := fun h => (r, h).

Declare Scope py_scope.
Delimit Scope py_scope with py.
Notation "x <- m ;; k" := (bind m (fun x => k))
  (at level 100, m at next level, right associativity) : py_scope.
Notation "m ;;; k" := (bind m (fun _ => k))
  (at level 100, right associativity) : py_scope.
Open Scope py_scope.

(** Reading an attribute of [self] goes through the object at that
    address.  [ReferenceError] is what the model answers at an address that
    holds no object; no Python program gets there. *)
Definition this (self : loc) : M Dataset :=
  fun h => match h !! self with
           | Some d => (Ok d, h)
           | None => (Raise ReferenceError, h)
           end.

(** [self._count = v] *)
Definition set__count (self : loc) (v : Z) : M unit :=
  fun h => match h !! self with
           | Some d => (Ok tt, <[self := with__count d v]> h)
           | None => (Raise ReferenceError, h)
           end.

(** [[f(i) for i in xs]] for a method call [f] *)
Fixpoint comprehension {A B} (f : A -> M B) (xs : list A) : M (list B) :=
  match xs with
  | [] => ret []
  | x :: xs' => y <- f x ;; ys <- comprehension f xs' ;; ret (y :: ys)
  end.

(** ** The methods of [Dataset] *)

(** What [__getitem__] returns: one sample, or a list of samples. *)
Inductive item : Type :=
| Sample (row : list Z)
| Samples (rows : list (list Z)).

(** [_elem]: [list(self.data[i].toarray()[0])], a new list on each call. *)
Definition _elem (self : loc) (i : Z) : M (list Z) :=
  d <- this self ;;
  row <- lift (csr_getitem (data d) i) ;;
  lift (first_row (toarray row)).

Definition __getitem__ (self : loc) (key : pyobj) : M item :=
  if negb (isinstance key [Tslice; Ttuple; Tint]) then raise TypeError else
  if isinstance key [Tint] then
    match int_value key with
    | Some k =>
        d <- this self ;;
        r <- _elem self (if k <? 0 then k + n_samples d else k) ;;
        ret (Sample r)
    | None => raise TypeError
    end
  else
    key' <- (if isinstance key [Ttuple] then
               match tuple_items key with
               | Some items => lift (slice_new items)
               | None => raise TypeError
               end
             else ret key) ;;
    match key' with
    | PySlice start stop step =>
        d <- this self ;;
        range_tuple <- lift (slice_indices start stop step (n_samples d)) ;;
        let '(a, b, c) := range_tuple in
        idx <- lift (py_range a b c) ;;
        rows <- comprehension (_elem self) idx ;;
        ret (Samples rows)
    | _ => raise TypeError
    end.

Definition __iter__ (self : loc) : M loc := ret self.

Definition __next__ (self : loc) : M item :=
  d <- this self ;;
  if get__count d <? n_samples d then
    set__count self (get__count d + 1) ;;;
    d' <- this self ;;
    __getitem__ self (PyInt (get__count d' - 1))
  else
    set__count self 0 ;;;
    raise StopIteration.

Definition __len__ (self : loc) : M Z :=
  d <- this self ;; ret (n_samples d).

(** [counts(axis)], [axis] an integer (1 when omitted). *)
Definition counts (self : loc) (axis : Z) : M (list Z) :=
  d <- this self ;;
  s <- lift (csr_sum (data d) axis) ;;
  ret (flatten_tolist s).

(** ** Loops over a dataset *)

(** [for x in it: ...] once the iterator [it] is at hand: call [__next__]
    until it raises [StopIteration], collecting what it returns.  [None]
    when [fuel] rounds were not enough to get there. *)
Fixpoint drain (fuel : nat) (it : loc) (h : heap)
  : option (result (list item) * heap) :=
  match fuel with
  | O => None
  | S fuel' =>
      match __next__ it h with
      | (Ok x, h') =>
          match drain fuel' it h' with
          | Some (Ok xs, h'') => Some (Ok (x :: xs), h'')
          | other => other
          end
      | (Raise StopIteration, h') => Some (Ok [], h')
      | (Raise e, h') => Some (Raise e, h')
      end
  end.

(** [[x for x in self]]: ask [self] for an iterator, then exhaust it. *)
Definition iterate (fuel : nat) (self : loc) (h : heap)
  : option (result (list item) * heap) :=
  match __iter__ self h with
  | (Ok it, h') => drain fuel it h'
  | (Raise e, h') => Some (Raise e, h')
  end.

(** A loop that is left after [k] rounds: [k] calls of [__next__]. *)
Fixpoint take_next (k : nat) (it : loc) : M (list item) :=
  match k with
  | O => ret []
  | S k' => x <- __next__ it ;; xs <- take_next k' it ;; ret (x :: xs)
  end.

(** One call of a public operation, and what it leaves in the store. *)
Inductive call : Type :=
| Call_getitem (key : pyobj)
| Call_counts (axis : Z)
| Call_len
| Call_iter
| Call_next.

Definition run_call (self : loc) (c : call) (h : heap) : heap :=
  match c with
  | Call_getitem key => snd (__getitem__ self key h)
  | Call_counts axis => snd (counts self axis h)
  | Call_len => snd (__len__ self h)
  | Call_iter => snd (__iter__ self h)
  | Call_next => snd (__next__ self h)
  end.

Definition run_calls (self : loc) (cs : list call) (h : heap) : heap :=
  fold_left (fun h' c => run_call self c h') cs h.

(** ** Constructed datasets *)

(** What construction establishes and every method keeps: the stored
    shape is the shape of the sample matrix, whose rows all have [modes]
    entries. *)
Definition constructed (d : Dataset) : Prop :=
  csr_wf (data d) /\ (n_samples d, modes d) = shape (data d).

(** A freshly constructed dataset has not been iterated over. *)
Definition fresh (d : Dataset) : Prop :=
  constructed d /\ _count d = None.

(** The [i]-th sample as the sparse matrix has it. *)
Definition csr_row (m : csr_matrix) (i : Z) : result (list Z) :=
  rbind (csr_getitem m i) (fun row => first_row (toarray row)).

(** Same object up to the iteration cursor. *)
Definition same_attributes (d d' : Dataset) : Prop :=
  class_of d' = class_of d /\ data d' = data d /\
  n_samples d' = n_samples d /\ modes d' = modes d /\
  n_mean d' = n_mean d /\ threshold d' = threshold d /\
  arrays d' = arrays d.

(** A method body that leaves the store as it found it. *)
Definition readonly {A} (m : M A) : Prop := forall h, snd (m h) = h.

(** Row [i] of the sample matrix, for [i] a row number. *)
Definition sample_at (m : csr_matrix) (i : Z) : list Z :=
  nth (Z.to_nat i) (mrows m) [].

(** Slice handling as the interface describes it: a range description
    (start, stop, step) with Python's slice semantics selects the indices
    of a range, and the result is the sequence of the rows at those
    indices, in range order. *)
Definition slice_handling (d : Dataset) (start stop step : pyobj)
  : result (list (list Z)) :=
  rbind (slice_indices start stop step (n_samples d)) (fun t =>
  let '(a, b, c) := t in
  rbind (py_range a b c) (fun idx =>
  Ok (map (sample_at (data d)) idx))).

(** The tuple form of indexing as the interface describes it: build the
    range description from the given bounds -- one to three of them, as
    the slice constructor takes them -- and hand it to slice handling. *)
Definition get_bounds (d : Dataset) (bounds : list pyobj)
  : result (list (list Z)) :=
  match bounds with
  | [stop] => slice_handling d PyNone stop PyNone
  | [start; stop] => slice_handling d start stop PyNone
  | [start; stop; step] => slice_handling d start stop step
  | _ => Raise TypeError
  end.

(** ** A small dataset for the examples *)

(** Two samples over three modes, and the path graph on three nodes. *)
Definition toy_samples : csr_matrix := mk_csr [[1; 0; 2]; [0; 3; 4]] 3.
Definition toy_adjacency : csr_matrix :=
  mk_csr [[0; 1; 0]; [1; 0; 1]; [0; 1; 0]] 3.
Definition toy : Dataset :=
  GraphDataset__init__ Planted toy_samples toy_adjacency.
Definition toy_loc : loc := 1%positive.
Definition toy_heap : heap := {[ toy_loc := toy ]}.


(** ** Further notions *)

(** The cursor points at a sample or just past the last one. *)
Definition cursor_in_bounds (d : Dataset) : Prop :=
  0 <= get__count d <= n_samples d.

(** Every entry of the matrix lies between 0 and [b]. *)
Definition entries_within (b : Z) (m : csr_matrix) : Prop :=
  Forall (Forall (fun x => 0 <= x <= b)) (mrows m).

(** Entrywise sum of two rows of unbounded integers. *)
Definition add_rows_exact (r acc : list Z) : list Z := zip_with Z.add r acc.

(** [[(x, [y for y in self]) for x in self]]: a loop over the dataset
    whose body loops over the same dataset.  [None] when [fuel] rounds
    were not enough. *)
Fixpoint nested_loops (fuel : nat) (self : loc) (h : heap)
  : option (result (list (item * list item)) * heap) :=
  match fuel with
  | O => None
  | S fuel' =>
      match __next__ self h with
      | (Ok x, h1) =>
          match iterate fuel' self h1 with
          | Some (Ok ys, h2) =>
              match nested_loops fuel' self h2 with
              | Some (Ok rest, h3) => Some (Ok ((x, ys) :: rest), h3)
              | other => other
              end
          | Some (Raise e, h2) => Some (Raise e, h2)
          | None => None
          end
      | (Raise StopIteration, h1) => Some (Ok [], h1)
      | (Raise e, h1) => Some (Raise e, h1)
      end
  end.

(** * Properties *)

(** ** Reading the object *)

Section Methods.
Context (h : heap) (self : loc) (d : Dataset).
Hypothesis Hself : h !! self = Some d.

Lemma this_self : this self h = (Ok d, h).
Proof using Hself. unfold this. by rewrite Hself. Qed.

Lemma _elem_self i : _elem self i h = (csr_row (data d) i, h).
Proof using Hself.
  unfold _elem, bind. rewrite this_self. unfold lift, csr_row.
  by destruct (csr_getitem (data d) i).
Qed.

Lemma comprehension_elem idx :
  comprehension (_elem self) idx h = (collect (csr_row (data d)) idx, h).
Proof using Hself.
  induction idx as [|i idx IH]; [done|].
  cbn [comprehension collect]. unfold bind at 1. rewrite _elem_self.
  destruct (csr_row (data d) i) as [r|e]; [|done].
  unfold bind at 1. rewrite IH. cbn [rbind].
  by destruct (collect (csr_row (data d)) idx).
Qed.

(** Indexing by an integer, read off the matrix. *)
Lemma getitem_int k :
  __getitem__ self (PyInt k) h =
    (rbind (csr_row (data d) (if k <? 0 then k + n_samples d else k))
           (fun r => Ok (Sample r)), h).
Proof using Hself.
  unfold __getitem__. cbn [isinstance type_of existsb negb int_value].
  cbn -[Z.ltb Z.add]. unfold bind at 1. rewrite this_self.
  unfold bind. rewrite _elem_self.
  by destruct (csr_row _ _).
Qed.

Lemma getitem_bool b :
  __getitem__ self (PyBool b) h = __getitem__ self (PyInt (Z.b2z b)) h.
Proof using Hself.
  rewrite getitem_int.
  unfold __getitem__. cbn -[Z.ltb Z.add Z.b2z]. unfold bind at 1.
  rewrite this_self. unfold bind. rewrite _elem_self.
  by destruct (csr_row _ _).
Qed.

(** Indexing by a slice object, read off the matrix. *)
Lemma getitem_slice start stop step :
  __getitem__ self (PySlice start stop step) h =
    (rbind (slice_indices start stop step (n_samples d)) (fun t =>
     let '(a, b, c) := t in
     rbind (py_range a b c) (fun idx =>
     rbind (collect (csr_row (data d)) idx) (fun rows =>
     Ok (Samples rows)))), h).
Proof using Hself.
  unfold __getitem__. cbn [isinstance type_of existsb negb].
  cbn -[slice_indices py_range]. unfold bind at 1. unfold ret at 1.
  unfold bind at 1. rewrite this_self.
  unfold bind at 1. unfold lift at 1.
  destruct (slice_indices start stop step (n_samples d)) as [[[a b] c]|e];
    [|done].
  cbn [rbind]. unfold bind at 1. unfold lift at 1.
  destruct (py_range a b c) as [idx|e]; [|done].
  cbn [rbind]. unfold bind. rewrite comprehension_elem.
  by destruct (collect _ _).
Qed.

Lemma len_self : __len__ self h = (Ok (n_samples d), h).
Proof using Hself. unfold __len__, bind. by rewrite this_self. Qed.

Lemma counts_self axis :
  counts self axis h =
    (rbind (csr_sum (data d) axis) (fun s => Ok (flatten_tolist s)), h).
Proof using Hself.
  unfold counts, bind. rewrite this_self. unfold lift.
  by destruct (csr_sum _ _).
Qed.
End Methods.

(** ** Rows of the sparse matrix *)

Lemma csr_row_lookup m i r :
  0 <= i -> mrows m !! Z.to_nat i = Some r -> csr_row m i = Ok r.
Proof.
  intros Hi Hr. pose proof (lookup_lt_Some _ _ _ Hr) as Hlt.
  unfold csr_row, csr_getitem, shape. cbn [fst].
  replace (i <? - Z.of_nat (length (mrows m))) with false by lia.
  replace (i >=? Z.of_nat (length (mrows m))) with false by lia.
  cbn [orb]. replace (i <? 0) with false by lia.
  by rewrite Hr.
Qed.

Lemma csr_row_inside m i :
  0 <= i < Z.of_nat (length (mrows m)) ->
  exists r, mrows m !! Z.to_nat i = Some r /\ csr_row m i = Ok r.
Proof.
  intros Hi.
  destruct (lookup_lt_is_Some_2 (mrows m) (Z.to_nat i)) as [r Hr]; [lia|].
  exists r. split; [done|]. apply csr_row_lookup; [lia|done].
Qed.

(** SciPy counts a negative row index from the end. *)
Lemma csr_row_negative m i :
  - Z.of_nat (length (mrows m)) <= i < 0 ->
  csr_row m i = csr_row m (i + Z.of_nat (length (mrows m))).
Proof.
  intros Hi.
  destruct (csr_row_inside m (i + Z.of_nat (length (mrows m))))
    as (r & Hr & ->); [lia|].
  unfold csr_row, csr_getitem, shape. cbn [fst].
  replace (i <? - Z.of_nat (length (mrows m))) with false by lia.
  replace (i >=? Z.of_nat (length (mrows m))) with false by lia.
  cbn [orb]. replace (i <? 0) with true by lia.
  by rewrite Hr.
Qed.

Lemma csr_row_outside m i :
  i < - Z.of_nat (length (mrows m)) \/ Z.of_nat (length (mrows m)) <= i ->
  csr_row m i = Raise IndexError.
Proof.
  intros Hi. unfold csr_row, csr_getitem, shape. cbn [fst].
  destruct (i <? - Z.of_nat (length (mrows m))) eqn:E1; [done|].
  destruct (i >=? Z.of_nat (length (mrows m))) eqn:E2; [done|]. lia.
Qed.

Lemma constructed_n_samples d :
  constructed d -> n_samples d = Z.of_nat (length (mrows (data d))).
Proof. intros [_ H]. unfold shape in H. congruence. Qed.

Lemma constructed_modes d :
  constructed d -> modes d = Z.of_nat (ncols (data d)).
Proof. intros [_ H]. unfold shape in H. congruence. Qed.

(** ** Comprehensions *)

Lemma collect_Forall2 {A B} (f : A -> result B) (xs : list A) :
  Forall (fun x => exists y, f x = Ok y) xs ->
  exists ys, collect f xs = Ok ys /\ Forall2 (fun x y => f x = Ok y) xs ys.
Proof.
  induction 1 as [|x xs [y Hy] _ (ys & Hys & IH)].
  - exists []. split; [done|constructor].
  - exists (y :: ys). cbn [collect]. rewrite Hy, Hys. split; [done|].
    by constructor.
Qed.

Lemma collect_map {A B} (f : A -> result B) (g : A -> B) (xs : list A) :
  Forall (fun x => f x = Ok (g x)) xs -> collect f xs = Ok (map g xs).
Proof.
  induction 1 as [|x xs Hx _ IH]; [done|].
  cbn [collect map]. by rewrite Hx, IH.
Qed.

(** ** [range] and [slice.indices] stay inside the bounds *)

Lemma py_range_inside s e st idx :
  py_range s e st = Ok idx ->
  st <> 0 /\
  Forall (fun i => if st >? 0 then s <= i < e else e < i <= s) idx.
Proof.
  unfold py_range. destruct (st =? 0) eqn:E0; [done|]. intros [= <-].
  split; [lia|].
  apply Forall_forall. intros i Hi. apply list_elem_of_In in Hi.
  apply in_map_iff in Hi as (k & <- & Hk).
  apply in_seq in Hk. unfold range_length in Hk.
  destruct (st >? 0) eqn:Est.
  - destruct (s >=? e) eqn:Ese; [cbn in Hk; lia|].
    assert (Hst : 0 < st) by lia.
    pose proof (Z.mul_div_le (e - s - 1) st Hst).
    assert (Z.of_nat k <= (e - s - 1) / st) by lia. nia.
  - destruct (e >=? s) eqn:Ese; [cbn in Hk; lia|].
    assert (Hst : 0 < - st) by lia.
    pose proof (Z.mul_div_le (s - e - 1) (- st) Hst).
    assert (Z.of_nat k <= (s - e - 1) / - st) by lia. nia.
Qed.

Lemma clamp_bound_inside lower upper n v :
  lower <= upper -> n - 1 <= upper -> lower <= 0 ->
  lower <= clamp_bound lower upper n v <= upper.
Proof.
  intros. unfold clamp_bound.
  destruct (v <? 0) eqn:E1.
  - destruct (v + n <? lower) eqn:E2; lia.
  - destruct (v >? upper) eqn:E2; lia.
Qed.

Lemma slice_indices_inside start stop step n s e st :
  slice_indices start stop step n = Ok (s, e, st) ->
  0 <= n /\ st <> 0 /\
  if st >? 0 then 0 <= s <= n /\ 0 <= e <= n
  else -1 <= s <= n - 1 /\ -1 <= e <= n - 1.
Proof.
  unfold slice_indices. destruct (n <? 0) eqn:En; [done|].
  destruct (slice_index step) as [ostep|]; [|done]. cbn [rbind].
  destruct (default 1 ostep =? 0) eqn:E0; [done|].
  destruct (slice_index start) as [ostart|]; [|done]. cbn [rbind].
  destruct (slice_index stop) as [ostop|]; [|done]. cbn [rbind].
  intros [= <- <- <-]. split; [lia|]. split; [lia|].
  destruct (default 1 ostep <? 0) eqn:Eneg.
  - replace (default 1 ostep >? 0) with false by lia.
    split; [destruct ostart as [v|]|destruct ostop as [v|]]; try lia;
      pose proof (clamp_bound_inside (-1) (n + -1) n v); lia.
  - replace (default 1 ostep >? 0) with true by lia.
    split; [destruct ostart as [v|]|destruct ostop as [v|]]; try lia;
      pose proof (clamp_bound_inside 0 n n v); lia.
Qed.

(** The indices a slice selects are row numbers of the dataset. *)
Lemma slice_range_inside start stop step n s e st idx :
  slice_indices start stop step n = Ok (s, e, st) ->
  py_range s e st = Ok idx ->
  Forall (fun i => 0 <= i < n) idx.
Proof.
  intros Hs Hr. apply slice_indices_inside in Hs as (Hn & _ & Hb).
  apply py_range_inside in Hr as (_ & Hr).
  eapply Forall_impl; [exact Hr|]. cbn beta. intros i Hi.
  destruct (st >? 0); lia.
Qed.

Lemma slice_indices_range_ok start stop step n s e st :
  slice_indices start stop step n = Ok (s, e, st) ->
  exists idx, py_range s e st = Ok idx.
Proof.
  intros Hs. apply slice_indices_inside in Hs as (_ & Hst & _).
  unfold py_range. replace (st =? 0) with false by lia. eauto.
Qed.

Lemma toy_at : toy_heap !! toy_loc = Some toy.
Proof. reflexivity. Qed.

Lemma toy_constructed : constructed toy.
Proof. split; [repeat constructor|reflexivity]. Qed.

(** ** The constructors establish [fresh] *)

Lemma Dataset__init__fresh cls samples :
  csr_wf samples -> fresh (Dataset__init__ cls samples).
Proof. intros Hwf. by split; [split|]. Qed.

Lemma GraphDataset__init__fresh cls samples A :
  csr_wf samples -> fresh (GraphDataset__init__ cls samples A).
Proof. intros Hwf. by split; [split|]. Qed.

Lemma MoleculeDataset__init__fresh cls samples w wp Ud delta d :
  csr_wf samples ->
  MoleculeDataset__init__ cls samples w wp Ud delta = Ok d -> fresh d.
Proof.
  intros Hwf. unfold MoleculeDataset__init__.
  destruct (first_row w); [|done]. destruct (first_row wp); [|done].
  destruct (first_row delta); [|done]. cbn [rbind]. intros [= <-].
  by split; [split|].
Qed.

(** Construction reads the shape off the loaded matrix and the metadata
    off the class. *)
Lemma GraphDataset__init__attributes cls samples A :
  let d := GraphDataset__init__ cls samples A in
  data d = samples /\
  n_samples d = Z.of_nat (length (mrows samples)) /\
  modes d = Z.of_nat (ncols samples) /\
  n_mean d = class_n_mean cls /\ threshold d = class_threshold cls /\
  arrays d = GraphArrays (mrows A).
Proof. by repeat split. Qed.

(** ** Integer keys *)

Section IntegerKeys.
Context (h : heap) (self : loc) (d : Dataset).
Hypothesis Hself : h !! self = Some d.
Hypothesis Hd : constructed d.

Lemma getitem_inside k :
  0 <= k < n_samples d ->
  exists r, mrows (data d) !! Z.to_nat k = Some r /\
            __getitem__ self (PyInt k) h = (Ok (Sample r), h).
Proof using Hself Hd.
  intros Hk. rewrite (constructed_n_samples d Hd) in Hk.
  destruct (csr_row_inside (data d) k Hk) as (r & Hr & Hrow).
  exists r. split; [done|]. rewrite (getitem_int h self d Hself).
  replace (k <? 0) with false by lia. by rewrite Hrow.
Qed.

(** A key at or above [n_samples] is refused. *)
Lemma getitem_at_or_above k :
  n_samples d <= k ->
  __getitem__ self (PyInt k) h = (Raise IndexError, h).
Proof using Hself Hd.
  intros Hk. pose proof (constructed_n_samples d Hd) as Hn.
  rewrite (getitem_int h self d Hself).
  replace (k <? 0) with false by lia.
  rewrite csr_row_outside; [done|lia].
Qed.

(** So is a key below [- 2 * n_samples]. *)
Lemma getitem_far_below k :
  k < - (2 * n_samples d) ->
  __getitem__ self (PyInt k) h = (Raise IndexError, h).
Proof using Hself Hd.
  intros Hk. pose proof (constructed_n_samples d Hd) as Hn.
  rewrite (getitem_int h self d Hself).
  replace (k <? 0) with true by lia.
  rewrite csr_row_outside; [done|lia].
Qed.

(** A key in [[- 2 * n_samples, - n_samples)] is still negative after
    [n_samples] was added to it, and the sparse matrix counts it from the
    end once more. *)
Lemma getitem_just_below k :
  - (2 * n_samples d) <= k < - n_samples d ->
  __getitem__ self (PyInt k) h =
    __getitem__ self (PyInt (k + 2 * n_samples d)) h /\
  exists r, __getitem__ self (PyInt k) h = (Ok (Sample r), h).
Proof using Hself Hd.
  intros Hk. pose proof (constructed_n_samples d Hd) as Hn.
  destruct (getitem_inside (k + 2 * n_samples d)) as (r & _ & Hr); [lia|].
  rewrite Hr. rewrite (getitem_int h self d Hself) in Hr |- *.
  replace (k + 2 * n_samples d <? 0) with false in Hr by lia.
  replace (k <? 0) with true by lia.
  rewrite csr_row_negative by lia. rewrite <- Hn.
  replace (k + n_samples d + n_samples d) with (k + 2 * n_samples d)
    by lia.
  split; [done|]. by exists r.
Qed.
End IntegerKeys.

(** C1: an integer key outside [[-n_samples, n_samples)] should fail with
    [IndexError].  On a dataset of two samples the key [-3] does not: it
    returns the last sample. *)
Theorem getitem_below_range_returns_last_sample :
  n_samples toy = 2 /\
  __getitem__ toy_loc (PyInt (-3)) toy_heap = (Ok (Sample [0; 3; 4]), toy_heap) /\
  __getitem__ toy_loc (PyInt (-1)) toy_heap = (Ok (Sample [0; 3; 4]), toy_heap).
Proof. repeat split. Qed.

(** C3: for [0 <= i < n_samples], the keys [i] and [-(n_samples - i)]
    address the same sample, the [i]-th row of the data. *)
Theorem getitem_negative_index (h : heap) (self : loc) (d : Dataset) (i : Z) :
  h !! self = Some d -> constructed d -> 0 <= i < n_samples d ->
  exists r,
    mrows (data d) !! Z.to_nat i = Some r /\
    __getitem__ self (PyInt i) h = (Ok (Sample r), h) /\
    __getitem__ self (PyInt (- (n_samples d - i))) h = (Ok (Sample r), h).
Proof.
  intros Hself Hd Hi.
  destruct (getitem_inside h self d Hself Hd i Hi) as (r & Hr & Hget).
  exists r. split; [done|]. split; [done|].
  rewrite (getitem_int h self d Hself) in Hget |- *.
  replace (i <? 0) with false in Hget by lia.
  replace (- (n_samples d - i) <? 0) with true by lia.
  replace (- (n_samples d - i) + n_samples d) with i by lia. done.
Qed.

Lemma getitem_negative_index_witness :
  exists r,
    mrows (data toy) !! Z.to_nat 0 = Some r /\
    __getitem__ toy_loc (PyInt 0) toy_heap = (Ok (Sample r), toy_heap) /\
    __getitem__ toy_loc (PyInt (- (n_samples toy - 0))) toy_heap =
      (Ok (Sample r), toy_heap).
Proof.
  apply (getitem_negative_index toy_heap toy_loc toy 0).
  - reflexivity.
  - split; [repeat constructor|reflexivity].
  - cbn. lia.
Defined.

(** ** Slice keys *)

(** C2: indexing by a slice returns the samples [get(i)] for [i] running
    through [range] of the slice's indices against [n_samples], in that
    order; an empty range gives an empty list.  A slice that describes no
    range (a zero step, a member that is no integer) raises what
    [slice.indices] raises. *)
Theorem getitem_slice_collects (h : heap) (self : loc) (d : Dataset)
    (start stop step : pyobj) :
  h !! self = Some d -> constructed d ->
  match slice_indices start stop step (n_samples d) with
  | Ok (a, b, c) =>
      exists idx rows,
        py_range a b c = Ok idx /\
        __getitem__ self (PySlice start stop step) h = (Ok (Samples rows), h) /\
        Forall2 (fun i r => __getitem__ self (PyInt i) h = (Ok (Sample r), h))
                idx rows /\
        (idx = [] -> rows = [])
  | Raise e => __getitem__ self (PySlice start stop step) h = (Raise e, h)
  end.
Proof.
  intros Hself Hd. rewrite (getitem_slice h self d Hself).
  destruct (slice_indices start stop step (n_samples d))
    as [[[a b] c]|e] eqn:Hs; [|done].
  destruct (slice_indices_range_ok _ _ _ _ _ _ _ Hs) as [idx Hidx].
  pose proof (slice_range_inside _ _ _ _ _ _ _ _ Hs Hidx) as Hin.
  assert (Hall : Forall (fun i => exists r, csr_row (data d) i = Ok r) idx).
  { eapply Forall_impl; [exact Hin|]. cbn beta. intros i Hi.
    rewrite (constructed_n_samples d Hd) in Hi.
    destruct (csr_row_inside (data d) i Hi) as (r & _ & Hr). eauto. }
  destruct (collect_Forall2 _ _ Hall) as (rows & Hrows & Hpair).
  exists idx, rows. cbn [rbind]. rewrite Hidx. cbn [rbind].
  rewrite Hrows. cbn [rbind]. split; [done|]. split; [done|]. split.
  - clear Hrows Hall Hidx Hs.
    induction Hpair as [|i r idx rows Hir _ IH]; [constructor|].
    apply Forall_cons in Hin as [Hi Hin]. constructor; [|by apply IH].
    rewrite (getitem_int h self d Hself).
    replace (i <? 0) with false by lia. by rewrite Hir.
  - intros ->. by inversion Hpair.
Qed.

Lemma getitem_slice_collects_witness :
  exists idx rows,
    py_range 1 (-1) (-1) = Ok idx /\
    __getitem__ toy_loc (PySlice PyNone PyNone (PyInt (-1))) toy_heap =
      (Ok (Samples rows), toy_heap) /\
    Forall2 (fun i r =>
               __getitem__ toy_loc (PyInt i) toy_heap = (Ok (Sample r), toy_heap))
            idx rows /\
    (idx = [] -> rows = []).
Proof.
  apply (getitem_slice_collects toy_heap toy_loc toy
           PyNone PyNone (PyInt (-1))).
  - reflexivity.
  - split; [repeat constructor|reflexivity].
Defined.

(** The whole dataset, forwards and backwards, and a negative bound. *)
Example getitem_slice_all :
  __getitem__ toy_loc (PySlice PyNone PyNone PyNone) toy_heap =
    (Ok (Samples [[1; 0; 2]; [0; 3; 4]]), toy_heap).
Proof. reflexivity. Qed.

Example getitem_slice_reversed :
  __getitem__ toy_loc (PySlice PyNone PyNone (PyInt (-1))) toy_heap =
    (Ok (Samples [[0; 3; 4]; [1; 0; 2]]), toy_heap).
Proof. reflexivity. Qed.

Example getitem_slice_negative_start :
  __getitem__ toy_loc (PySlice (PyInt (-1)) (PyInt 10) PyNone) toy_heap =
    (Ok (Samples [[0; 3; 4]]), toy_heap).
Proof. reflexivity. Qed.

Example getitem_slice_empty :
  __getitem__ toy_loc (PySlice (PyInt 2) (PyInt 1) PyNone) toy_heap =
    (Ok (Samples []), toy_heap).
Proof. reflexivity. Qed.

Example getitem_slice_zero_step :
  __getitem__ toy_loc (PySlice PyNone PyNone (PyInt 0)) toy_heap =
    (Raise ValueError, toy_heap).
Proof. reflexivity. Qed.

(** ** Keys of other types *)

(** C6: a key that is no instance of [slice], [tuple] or [int] (a float
    or a string, say) is refused with [TypeError], whatever the dataset. *)
Theorem getitem_unsupported_key (h : heap) (self : loc) (key : pyobj) :
  isinstance key [Tslice; Ttuple; Tint] = false ->
  __getitem__ self key h = (Raise TypeError, h).
Proof. intros Hkey. unfold __getitem__. by rewrite Hkey. Qed.

Lemma getitem_unsupported_key_witness :
  __getitem__ toy_loc (PyFloat (S754_finite false 3 (-1))) toy_heap =
    (Raise TypeError, toy_heap) /\
  __getitem__ toy_loc (PyStr "planted") toy_heap = (Raise TypeError, toy_heap).
Proof.
  split.
  - apply (getitem_unsupported_key toy_heap toy_loc
             (PyFloat (S754_finite false 3 (-1)))).
    reflexivity.
  - apply (getitem_unsupported_key toy_heap toy_loc (PyStr "planted")).
    reflexivity.
Defined.

(** Floats, strings and [None] are such keys. *)
Lemma unsupported_key_types key :
  In (type_of key) [Tfloat; Tstr; Tnone] ->
  isinstance key [Tslice; Ttuple; Tint] = false.
Proof. destruct key; cbn; intuition congruence. Qed.

(** C9: a boolean key passes the integer test and is read as 0 or 1:
    on a dataset of at least two samples [get(False)] is row 0 and
    [get(True)] is row 1, and neither raises [TypeError]. *)
Theorem getitem_bool_key (h : heap) (self : loc) (d : Dataset) :
  h !! self = Some d -> constructed d -> 2 <= n_samples d ->
  (forall b, isinstance (PyBool b) [Tint] = true) /\
  exists r0 r1,
    mrows (data d) !! 0%nat = Some r0 /\
    mrows (data d) !! 1%nat = Some r1 /\
    __getitem__ self (PyBool false) h = (Ok (Sample r0), h) /\
    __getitem__ self (PyBool true) h = (Ok (Sample r1), h).
Proof.
  intros Hself Hd Hn. split; [done|].
  destruct (getitem_inside h self d Hself Hd 0) as (r0 & Hr0 & H0); [lia|].
  destruct (getitem_inside h self d Hself Hd 1) as (r1 & Hr1 & H1); [lia|].
  exists r0, r1. rewrite !(getitem_bool h self d Hself). done.
Qed.

Lemma getitem_bool_key_witness :
  (forall b, isinstance (PyBool b) [Tint] = true) /\
  exists r0 r1,
    mrows (data toy) !! 0%nat = Some r0 /\
    mrows (data toy) !! 1%nat = Some r1 /\
    __getitem__ toy_loc (PyBool false) toy_heap = (Ok (Sample r0), toy_heap) /\
    __getitem__ toy_loc (PyBool true) toy_heap = (Ok (Sample r1), toy_heap).
Proof.
  apply (getitem_bool_key toy_heap toy_loc toy).
  - reflexivity.
  - split; [repeat constructor|reflexivity].
  - cbn. lia.
Defined.

(** ** Samples as rows of the data *)

Lemma sample_at_lookup m i r :
  mrows m !! Z.to_nat i = Some r -> sample_at m i = r.
Proof. intros Hr. unfold sample_at. by apply nth_lookup_Some. Qed.

Lemma csr_row_sample_at m i :
  0 <= i < Z.of_nat (length (mrows m)) ->
  csr_row m i = Ok (sample_at m i) /\ sample_at m i ∈ mrows m.
Proof.
  intros Hi. destruct (csr_row_inside m i Hi) as (r & Hr & ->).
  rewrite (sample_at_lookup m i r Hr). split; [done|].
  by eapply list_elem_of_lookup_2.
Qed.

Lemma collect_rows m idx :
  Forall (fun i => 0 <= i < Z.of_nat (length (mrows m))) idx ->
  collect (csr_row m) idx = Ok (map (sample_at m) idx).
Proof.
  intros Hidx. apply collect_map. eapply Forall_impl; [exact Hidx|].
  cbn beta. intros i Hi. by apply csr_row_sample_at.
Qed.

(** A slice key whose indices are known selects those rows. *)
Lemma getitem_slice_rows (h : heap) (self : loc) (d : Dataset)
    start stop step s e st :
  h !! self = Some d -> constructed d ->
  slice_indices start stop step (n_samples d) = Ok (s, e, st) ->
  exists idx,
    py_range s e st = Ok idx /\
    Forall (fun i => 0 <= i < n_samples d) idx /\
    __getitem__ self (PySlice start stop step) h =
      (Ok (Samples (map (sample_at (data d)) idx)), h).
Proof.
  intros Hself Hd Hs.
  destruct (slice_indices_range_ok _ _ _ _ _ _ _ Hs) as [idx Hidx].
  pose proof (slice_range_inside _ _ _ _ _ _ _ _ Hs Hidx) as Hin.
  exists idx. split; [done|]. split; [done|].
  rewrite (getitem_slice h self d Hself), Hs. cbn [rbind].
  rewrite Hidx. cbn [rbind]. rewrite collect_rows; [done|].
  by rewrite <- (constructed_n_samples d Hd).
Qed.

Lemma getitem_tuple (h : heap) (self : loc) items :
  __getitem__ self (PyTuple items) h =
    match slice_new items with
    | Ok key => __getitem__ self key h
    | Raise e => (Raise e, h)
    end.
Proof.
  unfold __getitem__ at 1.
  cbn [isinstance type_of existsb issubclass pytype_eqb orb andb negb
       tuple_items].
  unfold bind at 1. unfold lift at 1.
  destruct items as [|a [|b [|c [|x rest]]]]; cbn [slice_new]; done.
Qed.

Lemma slice_new_is_slice items key :
  slice_new items = Ok key -> exists a b c, key = PySlice a b c.
Proof.
  destruct items as [|a [|b [|c [|x rest]]]]; cbn [slice_new];
    intros [= <-]; eauto.
Qed.

(** ** Tuple keys *)

(** C7: a tuple key is turned into a slice by the [slice] constructor and
    then handled as that slice.  A tuple of one to three members returns
    what the slice built from those members returns, which is what the
    interface's tuple form describes: when the members describe a range,
    the sequence of the samples [get(i)] for [i] in that range, in range
    order; otherwise the error of [slice.indices].  With no member or more
    than three, the construction of the slice fails with [TypeError], and
    indexing with it. *)
Theorem getitem_tuple_is_slice (h : heap) (self : loc) (d : Dataset)
    (items : list pyobj) :
  h !! self = Some d -> constructed d ->
  __getitem__ self (PyTuple items) h =
    (rbind (get_bounds d items) (fun rows => Ok (Samples rows)), h) /\
  match slice_new items with
  | Ok key =>
      __getitem__ self (PyTuple items) h = __getitem__ self key h /\
      match key with
      | PySlice start stop step =>
          match slice_indices start stop step (n_samples d) with
          | Ok (s, e, st) =>
              exists idx rows,
                py_range s e st = Ok idx /\
                __getitem__ self (PyTuple items) h = (Ok (Samples rows), h) /\
                Forall2 (fun i r =>
                           __getitem__ self (PyInt i) h = (Ok (Sample r), h))
                        idx rows
          | Raise err => __getitem__ self (PyTuple items) h = (Raise err, h)
          end
      | _ => False
      end
  | Raise err =>
      err = TypeError /\ (items = [] \/ (3 < length items)%nat) /\
      __getitem__ self (PyTuple items) h = (Raise TypeError, h)
  end.
Proof.
  intros Hself Hd.
  assert (Hslice : forall start stop step,
    __getitem__ self (PySlice start stop step) h =
      (rbind (slice_handling d start stop step)
             (fun rows => Ok (Samples rows)), h) /\
    match slice_indices start stop step (n_samples d) with
    | Ok (s, e, st) =>
        exists idx rows,
          py_range s e st = Ok idx /\
          __getitem__ self (PySlice start stop step) h =
            (Ok (Samples rows), h) /\
          Forall2 (fun i r =>
                     __getitem__ self (PyInt i) h = (Ok (Sample r), h))
                  idx rows
    | Raise err =>
        __getitem__ self (PySlice start stop step) h = (Raise err, h)
    end).
  { intros start stop step. unfold slice_handling.
    destruct (slice_indices start stop step (n_samples d))
      as [[[s e] st]|err] eqn:Hs.
    - destruct (getitem_slice_rows h self d _ _ _ _ _ _ Hself Hd Hs)
        as (idx & Hidx & Hin & Hget).
      rewrite Hget. cbn [rbind]. rewrite Hidx. cbn [rbind].
      split; [done|]. exists idx, (map (sample_at (data d)) idx).
      split; [done|]. split; [done|].
      clear Hidx Hget Hs. induction Hin as [|i idx Hi _ IH];
        [constructor|].
      cbn [map]. constructor; [|exact IH].
      destruct (getitem_inside h self d Hself Hd i Hi) as (r & Hr & ->).
      by rewrite (sample_at_lookup (data d) i r Hr).
    - rewrite (getitem_slice h self d Hself), Hs. by cbn [rbind]. }
  rewrite getitem_tuple.
  destruct items as [|a [|b [|c [|x rest]]]]; cbn [slice_new get_bounds].
  - split; [done|]. split; [done|]. split; [by left|done].
  - destruct (Hslice PyNone a PyNone) as [Hspec Hrun].
    split; [exact Hspec|]. split; [done|]. exact Hrun.
  - destruct (Hslice a b PyNone) as [Hspec Hrun].
    split; [exact Hspec|]. split; [done|]. exact Hrun.
  - destruct (Hslice a b c) as [Hspec Hrun].
    split; [exact Hspec|]. split; [done|]. exact Hrun.
  - split; [done|]. split; [done|]. split; [right; cbn; lia|done].
Qed.

Lemma getitem_tuple_is_slice_witness :
  __getitem__ toy_loc (PyTuple [PyInt 0; PyInt 5]) toy_heap =
    (rbind (get_bounds toy [PyInt 0; PyInt 5])
           (fun rows => Ok (Samples rows)), toy_heap) /\
  (__getitem__ toy_loc (PyTuple [PyInt 0; PyInt 5]) toy_heap =
     __getitem__ toy_loc (PySlice (PyInt 0) (PyInt 5) PyNone) toy_heap /\
   exists idx rows,
     py_range 0 2 1 = Ok idx /\
     __getitem__ toy_loc (PyTuple [PyInt 0; PyInt 5]) toy_heap =
       (Ok (Samples rows), toy_heap) /\
     Forall2 (fun i r =>
                __getitem__ toy_loc (PyInt i) toy_heap =
                  (Ok (Sample r), toy_heap))
             idx rows).
Proof.
  apply (getitem_tuple_is_slice toy_heap toy_loc toy [PyInt 0; PyInt 5]).
  - reflexivity.
  - split; [repeat constructor|reflexivity].
Defined.

(** Tuples of one, two and three bounds, and tuples of none and of four. *)
Example getitem_tuple_toy :
  __getitem__ toy_loc (PyTuple [PyInt 1]) toy_heap =
    (Ok (Samples [[1; 0; 2]]), toy_heap) /\
  __getitem__ toy_loc (PyTuple [PyInt 0; PyInt 5]) toy_heap =
    (Ok (Samples [[1; 0; 2]; [0; 3; 4]]), toy_heap) /\
  __getitem__ toy_loc (PyTuple [PyNone; PyNone; PyInt (-1)]) toy_heap =
    (Ok (Samples [[0; 3; 4]; [1; 0; 2]]), toy_heap) /\
  __getitem__ toy_loc (PyTuple [PyInt 0; PyInt 5; PyInt 0]) toy_heap =
    (Raise ValueError, toy_heap) /\
  __getitem__ toy_loc
    (PyTuple [PyInt 0; PyInt 1; PyInt 1; PyInt 1]) toy_heap =
    (Raise TypeError, toy_heap).
Proof. repeat split. Qed.

Example getitem_empty_tuple :
  __getitem__ toy_loc (PyTuple []) toy_heap = (Raise TypeError, toy_heap).
Proof. reflexivity. Qed.

(** ** Counts *)

(** Arithmetic on 64-bit signed integers *)

Lemma wrap64_small z : - 2 ^ 63 <= z < 2 ^ 63 -> wrap64 z = z.
Proof. intros Hz. unfold wrap64. rewrite Z.mod_small; lia. Qed.

Lemma wrap64_add_r x y : wrap64 (x + wrap64 y) = wrap64 (x + y).
Proof.
  unfold wrap64.
  replace (x + ((y + 2 ^ 63) mod 2 ^ 64 - 2 ^ 63) + 2 ^ 63)
    with (x + (y + 2 ^ 63) mod 2 ^ 64) by lia.
  rewrite Zplus_mod_idemp_r. f_equal. f_equal. lia.
Qed.

(** Adding up in 64 bits gives the sum, wrapped. *)
Lemma sum64_wrap l : sum64 l = wrap64 (sumZ l).
Proof.
  induction l as [|x l IH]; [done|].
  cbn [sum64 sumZ fold_right]. fold (sum64 l). fold (sumZ l).
  unfold add64. by rewrite IH, wrap64_add_r.
Qed.

Lemma length_add_rows r acc :
  length r = length acc -> length (add_rows r acc) = length acc.
Proof. intros H. unfold add_rows. rewrite length_zip_with. lia. Qed.

Lemma row_sums_flatten rows :
  concat (map (fun r => [sum64 r]) rows) = map sum64 rows.
Proof.
  induction rows as [|r rows IH]; [done|].
  cbn [map concat app]. by rewrite IH.
Qed.

(** Accumulating the rows from a zero row adds up each column. *)
Lemma column_sums rows nc :
  Forall (fun r => length r = nc) rows ->
  let acc := fold_right add_rows (replicate nc 0) rows in
  length acc = nc /\
  forall m, (m < nc)%nat ->
    acc !! m = Some (sum64 (map (fun r => nth m r 0) rows)).
Proof.
  induction 1 as [|r rows Hr _ [IHlen IH]]; cbn [fold_right map sum64].
  - split; [apply length_replicate|]. intros m Hm.
    apply lookup_replicate_2. done.
  - split.
    + rewrite length_add_rows; [done|]. by rewrite IHlen.
    + intros m Hm. unfold add_rows at 1. rewrite lookup_zip_with.
      destruct (lookup_lt_is_Some_2 r m) as [x Hx]; [lia|].
      rewrite Hx. cbn [mbind option_bind]. rewrite (IH m Hm).
      cbn [mbind option_bind]. f_equal. f_equal.
      symmetry. by apply nth_lookup_Some.
Qed.

(** The samples of a dataset, each as indexing returns it. *)
Lemma all_samples (h : heap) (self : loc) (d : Dataset) :
  h !! self = Some d -> constructed d ->
  Forall2 (fun i r => __getitem__ self (PyInt i) h = (Ok (Sample r), h))
          (seqZ 0 (n_samples d)) (mrows (data d)).
Proof.
  intros Hself Hd. apply Forall2_same_length_lookup_2.
  - rewrite length_seqZ. rewrite (constructed_n_samples d Hd). lia.
  - intros k i r Hi Hr. apply lookup_seqZ in Hi as [-> Hk].
    destruct (getitem_inside h self d Hself Hd (0 + Z.of_nat k))
      as (r' & Hr' & Hget); [lia|].
    replace (Z.to_nat (0 + Z.of_nat k)) with k in Hr' by lia.
    congruence.
Qed.

(** What [counts] returns for the two axes, read off the matrix. *)
Lemma counts_axes (h : heap) (self : loc) (d : Dataset) :
  h !! self = Some d ->
  counts self 1 h = (Ok (map sum64 (mrows (data d))), h) /\
  counts self 0 h =
    (Ok (fold_right add_rows (replicate (ncols (data d)) 0)
           (mrows (data d))), h).
Proof.
  intros Hself. rewrite !(counts_self h self d Hself).
  change (csr_sum (data d) 1)
    with (Ok (map (fun r => [sum64 r]) (mrows (data d)))).
  change (csr_sum (data d) 0) with
    (Ok [fold_right add_rows (replicate (ncols (data d)) 0) (mrows (data d))]).
  cbn [rbind]. unfold flatten_tolist. cbn [concat].
  by rewrite app_nil_r, row_sums_flatten.
Qed.




Example counts_toy :
  counts toy_loc 1 toy_heap = (Ok [3; 7], toy_heap) /\
  counts toy_loc 0 toy_heap = (Ok [1; 3; 6], toy_heap) /\
  counts toy_loc (-1) toy_heap = (Ok [3; 7], toy_heap) /\
  counts toy_loc 2 toy_heap = (Raise ValueError, toy_heap).
Proof. repeat split. Qed.

(** ** Iteration *)

Lemma constructed_with__count d v : constructed d -> constructed (with__count d v).
Proof. done. Qed.

Lemma with__count_twice d v v' :
  with__count (with__count d v) v' = with__count d v'.
Proof. done. Qed.

(** [__iter__] hands back the dataset itself and touches nothing. *)
Lemma iter_self (h : heap) (self : loc) : __iter__ self h = (Ok self, h).
Proof. done. Qed.

(** With the cursor on a sample, [__next__] returns it and moves on. *)
Lemma next_sample (h : heap) (self : loc) (d : Dataset) (r : list Z) :
  h !! self = Some d -> constructed d -> 0 <= get__count d ->
  mrows (data d) !! Z.to_nat (get__count d) = Some r ->
  __next__ self h =
    (Ok (Sample r), <[self := with__count d (get__count d + 1)]> h).
Proof.
  intros Hself Hd Hc Hr.
  pose proof (lookup_lt_Some _ _ _ Hr) as Hlt.
  pose proof (constructed_n_samples d Hd) as Hn.
  unfold __next__, bind at 1. rewrite (this_self h self d Hself).
  replace (get__count d <? n_samples d) with true by lia.
  unfold bind at 1, set__count. rewrite Hself.
  unfold bind at 1.
  set (d' := with__count d (get__count d + 1)).
  assert (Hself' : <[self := d']> h !! self = Some d')
    by apply lookup_insert_eq.
  rewrite (this_self _ self d' Hself').
  rewrite (getitem_int _ self d' Hself').
  replace (get__count d' - 1) with (get__count d)
    by (subst d'; cbn; lia).
  replace (get__count d <? 0) with false by lia.
  change (data d') with (data d).
  by rewrite (csr_row_lookup (data d) (get__count d) r Hc Hr).
Qed.

(** With the cursor at the end, [__next__] puts it back to 0 and stops. *)
Lemma next_exhausted (h : heap) (self : loc) (d : Dataset) :
  h !! self = Some d -> n_samples d <= get__count d ->
  __next__ self h = (Raise StopIteration, <[self := with__count d 0]> h).
Proof.
  intros Hself Hc.
  unfold __next__, bind at 1. rewrite (this_self h self d Hself).
  replace (get__count d <? n_samples d) with false by lia.
  unfold bind, set__count. by rewrite Hself.
Qed.

(** Exhausting the iterator from cursor position [c] gives the samples
    from [c] on and leaves the cursor at 0. *)
Lemma drain_from_cursor (self : loc) (j : nat) :
  forall (h : heap) (d : Dataset),
    h !! self = Some d -> constructed d -> 0 <= get__count d ->
    (Z.to_nat (get__count d) + j = length (mrows (data d)))%nat ->
    forall fuel, (j < fuel)%nat ->
      drain fuel self h =
        Some (Ok (map Sample (drop (Z.to_nat (get__count d)) (mrows (data d)))),
              <[self := with__count d 0]> h).
Proof.
  induction j as [|j IH]; intros h d Hself Hd Hc Hj fuel Hfuel;
    (destruct fuel as [|fuel]; [lia|]); cbn [drain].
  - rewrite (next_exhausted h self d Hself)
      by (rewrite (constructed_n_samples d Hd); lia).
    rewrite drop_ge by lia. done.
  - destruct (lookup_lt_is_Some_2 (mrows (data d)) (Z.to_nat (get__count d)))
      as [r Hr]; [lia|].
    rewrite (next_sample h self d r Hself Hd Hc Hr).
    set (d' := with__count d (get__count d + 1)).
    assert (Hc' : get__count d' = get__count d + 1) by done.
    rewrite (IH (<[self := d']> h) d').
    + rewrite insert_insert_eq.
      change (data d') with (data d). rewrite Hc'.
      replace (Z.to_nat (get__count d + 1))
        with (S (Z.to_nat (get__count d))) by lia.
      rewrite (drop_S _ r _ Hr). done.
    + apply lookup_insert_eq.
    + done.
    + lia.
    + change (data d') with (data d). lia.
    + lia.
Qed.

(** Leaving a loop after [k] rounds leaves the cursor [k] further on. *)
Lemma take_next_from_cursor (self : loc) (k : nat) :
  forall (h : heap) (d : Dataset),
    h !! self = Some d -> constructed d -> 0 <= get__count d ->
    (Z.to_nat (get__count d) + k <= length (mrows (data d)))%nat ->
    exists d',
      take_next k self h =
        (Ok (map Sample
               (take k (drop (Z.to_nat (get__count d)) (mrows (data d))))),
         <[self := d']> h) /\
      same_attributes d d' /\
      get__count d' = get__count d + Z.of_nat k.
Proof.
  induction k as [|k IH]; intros h d Hself Hd Hc Hk; cbn [take_next].
  - exists d. rewrite insert_id by done. unfold ret.
    split; [done|]. split; [done|]. lia.
  - destruct (lookup_lt_is_Some_2 (mrows (data d)) (Z.to_nat (get__count d)))
      as [r Hr]; [lia|].
    unfold bind at 1. rewrite (next_sample h self d r Hself Hd Hc Hr).
    set (d1 := with__count d (get__count d + 1)).
    assert (Hc1 : get__count d1 = get__count d + 1) by done.
    destruct (IH (<[self := d1]> h) d1) as (d' & Hrun & Hsame & Hc');
      [apply lookup_insert_eq|done|lia|change (data d1) with (data d); lia|].
    exists d'. unfold bind at 1. rewrite Hrun. unfold ret.
    rewrite insert_insert_eq. change (data d1) with (data d). rewrite Hc1.
    replace (Z.to_nat (get__count d + 1))
      with (S (Z.to_nat (get__count d))) by lia.
    rewrite (drop_S _ r _ Hr). cbn [take map].
    split; [done|]. split; [exact Hsame|]. lia.
Qed.

Lemma same_attributes_with__count d d' v :
  same_attributes d d' -> with__count d' v = with__count d v.
Proof.
  intros (Hc & Hdata & Hn & Hm & _ & _ & Ha).
  unfold with__count. by rewrite Hc, Hdata, Hn, Hm, Ha.
Qed.

Lemma same_attributes_constructed d d' :
  same_attributes d d' -> constructed d -> constructed d'.
Proof.
  intros (_ & Hdata & Hn & Hm & _) [Hwf Hshape].
  unfold constructed. rewrite Hdata, Hn, Hm. done.
Qed.

Lemma fresh_cursor d : fresh d -> get__count d = 0.
Proof. intros [_ Hc]. unfold get__count. by rewrite Hc. Qed.

(** C4: exhaustively iterating a freshly constructed dataset produces
    [get(0)], ..., [get(n_samples - 1)] in that order, [length()] of them;
    the cursor is back at 0 afterwards, and a second exhaustive iteration
    of the same object produces the same sequence. *)
Theorem iterate_all_then_again (h : heap) (self : loc) (d : Dataset)
    (fuel : nat) :
  h !! self = Some d -> fresh d -> (Z.to_nat (n_samples d) < fuel)%nat ->
  exists (produced : list item) (h1 : heap) (d1 : Dataset),
    iterate fuel self h = Some (Ok produced, h1) /\
    Forall2 (fun i x => __getitem__ self (PyInt i) h = (Ok x, h))
            (seqZ 0 (n_samples d)) produced /\
    __len__ self h = (Ok (Z.of_nat (length produced)), h) /\
    h1 !! self = Some d1 /\ get__count d1 = 0 /\
    iterate fuel self h1 = Some (Ok produced, h1).
Proof.
  intros Hself [Hd Hfresh] Hfuel.
  pose proof (fresh_cursor d (conj Hd Hfresh)) as Hc.
  pose proof (constructed_n_samples d Hd) as Hn.
  set (d1 := with__count d 0).
  exists (map Sample (mrows (data d))), (<[self := d1]> h), d1.
  assert (Hself1 : <[self := d1]> h !! self = Some d1)
    by apply lookup_insert_eq.
  split.
  { unfold iterate. rewrite iter_self.
    rewrite (drain_from_cursor self (length (mrows (data d))) h d);
      [by rewrite Hc|done|done|lia|lia|lia]. }
  split.
  { apply Forall2_fmap_r. eapply Forall2_impl; [by apply all_samples|].
    done. }
  split.
  { rewrite (len_self h self d Hself), length_map. by rewrite Hn. }
  split; [done|]. split; [done|].
  unfold iterate. rewrite iter_self.
  rewrite (drain_from_cursor self (length (mrows (data d)))
             (<[self := d1]> h) d1); [|done|done|done|done|].
  - rewrite insert_insert_eq. done.
  - change (data d1) with (data d). lia.
Qed.

Lemma iterate_all_then_again_witness :
  exists (produced : list item) (h1 : heap) (d1 : Dataset),
    iterate 3 toy_loc toy_heap = Some (Ok produced, h1) /\
    Forall2 (fun i x => __getitem__ toy_loc (PyInt i) toy_heap = (Ok x, toy_heap))
            (seqZ 0 (n_samples toy)) produced /\
    __len__ toy_loc toy_heap = (Ok (Z.of_nat (length produced)), toy_heap) /\
    h1 !! toy_loc = Some d1 /\ get__count d1 = 0 /\
    iterate 3 toy_loc h1 = Some (Ok produced, h1).
Proof.
  apply (iterate_all_then_again toy_heap toy_loc toy 3).
  - reflexivity.
  - split; [split; [repeat constructor|reflexivity]|reflexivity].
  - cbn. lia.
Defined.

Example iterate_toy :
  iterate 3 toy_loc toy_heap =
    Some (Ok [Sample [1; 0; 2]; Sample [0; 3; 4]],
          <[toy_loc := with__count toy 0]> toy_heap) /\
  iterate 2 toy_loc toy_heap = None.
Proof. split; reflexivity. Qed.

(** C10: [__iter__] returns the dataset itself and leaves the cursor
    alone.  So after a loop over a fresh dataset was left after [k]
    rounds, the cursor is at [k], and a new loop over the same dataset
    produces the samples from [k] on, not from 0; the cursor is back at 0
    only once [__next__] has run off the end. *)
Theorem iter_resumes_at_cursor (h : heap) (self : loc) (d : Dataset)
    (k : nat) :
  h !! self = Some d -> fresh d -> (k <= length (mrows (data d)))%nat ->
  __iter__ self h = (Ok self, h) /\
  exists (h1 : heap) (d1 : Dataset),
    take_next k self h = (Ok (map Sample (take k (mrows (data d)))), h1) /\
    h1 !! self = Some d1 /\ get__count d1 = Z.of_nat k /\
    __iter__ self h1 = (Ok self, h1) /\
    forall fuel, (length (mrows (data d)) - k < fuel)%nat ->
      exists (h2 : heap) (d2 : Dataset),
        iterate fuel self h1 =
          Some (Ok (map Sample (drop k (mrows (data d)))), h2) /\
        h2 !! self = Some d2 /\ get__count d2 = 0.
Proof.
  intros Hself [Hd Hfresh] Hk.
  pose proof (fresh_cursor d (conj Hd Hfresh)) as Hc.
  split; [done|].
  destruct (take_next_from_cursor self k h d Hself Hd) as (d1 & Hrun & Hsame & Hc1);
    [lia|lia|].
  rewrite Hc in Hrun, Hc1. cbn [Z.to_nat drop] in Hrun.
  assert (Hself1 : <[self := d1]> h !! self = Some d1)
    by apply lookup_insert_eq.
  pose proof (same_attributes_constructed d d1 Hsame Hd) as Hd1.
  assert (Hdata : data d1 = data d) by apply Hsame.
  exists (<[self := d1]> h), d1.
  split; [done|]. split; [done|]. split; [lia|]. split; [done|].
  intros fuel Hfuel.
  exists (<[self := with__count d1 0]> (<[self := d1]> h)), (with__count d1 0).
  split.
  - unfold iterate. rewrite iter_self.
    rewrite (drain_from_cursor self (length (mrows (data d)) - k)
               (<[self := d1]> h) d1); [|done|done|lia| |done].
    + rewrite Hdata, Hc1.
      by replace (Z.to_nat (0 + Z.of_nat k)) with k by lia.
    + rewrite Hdata, Hc1. lia.
  - split; [apply lookup_insert_eq|done].
Qed.

Lemma iter_resumes_at_cursor_witness :
  __iter__ toy_loc toy_heap = (Ok toy_loc, toy_heap) /\
  exists (h1 : heap) (d1 : Dataset),
    take_next 1 toy_loc toy_heap =
      (Ok (map Sample (take 1 (mrows (data toy)))), h1) /\
    h1 !! toy_loc = Some d1 /\ get__count d1 = Z.of_nat 1 /\
    __iter__ toy_loc h1 = (Ok toy_loc, h1) /\
    forall fuel, (length (mrows (data toy)) - 1 < fuel)%nat ->
      exists (h2 : heap) (d2 : Dataset),
        iterate fuel toy_loc h1 =
          Some (Ok (map Sample (drop 1 (mrows (data toy)))), h2) /\
        h2 !! toy_loc = Some d2 /\ get__count d2 = 0.
Proof.
  apply (iter_resumes_at_cursor toy_heap toy_loc toy 1).
  - reflexivity.
  - split; [split; [repeat constructor|reflexivity]|reflexivity].
  - cbn. lia.
Defined.

Example resume_toy :
  let h1 := snd (take_next 1 toy_loc toy_heap) in
  fst (take_next 1 toy_loc toy_heap) = Ok [Sample [1; 0; 2]] /\
  iterate 2 toy_loc h1 =
    Some (Ok [Sample [0; 3; 4]], <[toy_loc := with__count toy 0]> toy_heap).
Proof. split; reflexivity. Qed.

(** ** What the operations leave alone *)

Lemma readonly_ret {A} (a : A) : readonly (ret a).
Proof. done. Qed.

Lemma readonly_raise {A} (e : exn) : readonly (@raise A e).
Proof. done. Qed.

Lemma readonly_lift {A} (r : result A) : readonly (lift r).
Proof. done. Qed.

Lemma readonly_this self : readonly (this self).
Proof. intros h. unfold this. by destruct (h !! self). Qed.

Lemma readonly_bind {A B} (m : M A) (k : A -> M B) :
  readonly m -> (forall a, readonly (k a)) -> readonly (bind m k).
Proof.
  intros Hm Hk h. unfold bind. specialize (Hm h).
  destruct (m h) as [[a|e] h']; cbn [snd] in Hm; subst h'; [apply Hk|done].
Qed.

Lemma readonly_comprehension {A B} (f : A -> M B) (xs : list A) :
  (forall x, readonly (f x)) -> readonly (comprehension f xs).
Proof.
  intros Hf. induction xs as [|x xs IH]; [apply readonly_ret|].
  cbn [comprehension]. apply readonly_bind; [apply Hf|]. intros y.
  apply readonly_bind; [apply IH|]. intros ys. apply readonly_ret.
Qed.

Create HintDb readonly.

#[local] Hint Resolve readonly_ret readonly_raise readonly_lift
  readonly_this : readonly.

Lemma readonly_elem self i : readonly (_elem self i).
Proof.
  unfold _elem. apply readonly_bind; [auto with readonly|]. intros d.
  apply readonly_bind; auto with readonly.
Qed.

Lemma readonly_getitem self key : readonly (__getitem__ self key).
Proof.
  unfold __getitem__.
  destruct (negb (isinstance key [Tslice; Ttuple; Tint]));
    [auto with readonly|].
  destruct (isinstance key [Tint]).
  - destruct (int_value key) as [k|]; [|auto with readonly].
    apply readonly_bind; [auto with readonly|]. intros d.
    apply readonly_bind; [apply readonly_elem|]. auto with readonly.
  - apply readonly_bind.
    + destruct (isinstance key [Ttuple]); [|auto with readonly].
      destruct (tuple_items key); auto with readonly.
    + intros [| | | | |start stop step|]; auto with readonly.
      apply readonly_bind; [auto with readonly|]. intros d.
      apply readonly_bind; [auto with readonly|]. intros [[a b] c].
      apply readonly_bind; [auto with readonly|]. intros idx.
      apply readonly_bind; [|auto with readonly].
      apply readonly_comprehension, readonly_elem.
Qed.

Lemma readonly_counts self axis : readonly (counts self axis).
Proof.
  unfold counts. apply readonly_bind; [auto with readonly|]. intros d.
  apply readonly_bind; auto with readonly.
Qed.

Lemma readonly_len self : readonly (__len__ self).
Proof.
  unfold __len__. apply readonly_bind; auto with readonly.
Qed.

(** [__next__] writes the cursor of [self] and nothing else. *)
Lemma next_writes_cursor (h : heap) (self : loc) (d : Dataset) :
  h !! self = Some d ->
  exists v, snd (__next__ self h) = <[self := with__count d v]> h.
Proof.
  intros Hself. unfold __next__, bind at 1.
  rewrite (this_self h self d Hself).
  destruct (get__count d <? n_samples d).
  - exists (get__count d + 1). unfold bind at 1, set__count. rewrite Hself.
    apply (readonly_bind (this self)
             (fun d' => __getitem__ self (PyInt (get__count d' - 1)))).
    + apply readonly_this.
    + intros d'. apply readonly_getitem.
  - exists 0. unfold bind, set__count. by rewrite Hself.
Qed.

Lemma same_attributes_refl d : same_attributes d d.
Proof. by repeat split. Qed.

Lemma same_attributes_trans d1 d2 d3 :
  same_attributes d1 d2 -> same_attributes d2 d3 -> same_attributes d1 d3.
Proof.
  unfold same_attributes. intros H12 H23.
  destruct H12 as (?&?&?&?&?&?&?), H23 as (?&?&?&?&?&?&?).
  repeat split; congruence.
Qed.

(** One call keeps every attribute of [self] but the cursor, and every
    other object. *)
Lemma run_call_frame (self : loc) (c : call) (h : heap) (d : Dataset) :
  h !! self = Some d ->
  exists d', run_call self c h !! self = Some d' /\ same_attributes d d' /\
             forall l, l <> self -> run_call self c h !! l = h !! l.
Proof.
  intros Hself. destruct c as [key|axis| | |]; cbn [run_call].
  - rewrite readonly_getitem. exists d. by repeat split.
  - rewrite readonly_counts. exists d. by repeat split.
  - rewrite readonly_len. exists d. by repeat split.
  - exists d. by repeat split.
  - destruct (next_writes_cursor h self d Hself) as [v ->].
    exists (with__count d v). split; [apply lookup_insert_eq|].
    split; [by repeat split|]. intros l Hl. by apply lookup_insert_ne.
Qed.

(** C8: whatever sequence of [__getitem__], [counts], [__len__],
    [__iter__] and [__next__] calls is made on a dataset, its [data],
    [n_samples], [modes], [n_mean], [threshold] and subclass arrays are
    what they were, and no other object has changed. *)
Theorem operations_keep_attributes (self : loc) (cs : list call)
    (h : heap) (d : Dataset) :
  h !! self = Some d ->
  exists d',
    run_calls self cs h !! self = Some d' /\
    data d' = data d /\ n_samples d' = n_samples d /\ modes d' = modes d /\
    n_mean d' = n_mean d /\ threshold d' = threshold d /\
    arrays d' = arrays d /\
    forall l, l <> self -> run_calls self cs h !! l = h !! l.
Proof.
  intros Hself.
  enough (exists d', run_calls self cs h !! self = Some d' /\
                     same_attributes d d' /\
                     forall l, l <> self -> run_calls self cs h !! l = h !! l)
    as (d' & Hd' & (_ & Hsame) & Hother) by (exists d'; tauto).
  revert h d Hself. induction cs as [|c cs IH]; intros h d Hself.
  - exists d. split; [done|]. split; [apply same_attributes_refl|done].
  - cbn [run_calls fold_left].
    destruct (run_call_frame self c h d Hself) as (d1 & Hd1 & Hsame1 & Hother1).
    destruct (IH _ d1 Hd1) as (d' & Hd' & Hsame & Hother).
    exists d'. split; [exact Hd'|].
    split; [by apply (same_attributes_trans d d1 d')|].
    intros l Hl. unfold run_calls in Hother. rewrite (Hother l Hl).
    by apply Hother1.
Qed.

Lemma operations_keep_attributes_witness :
  exists d',
    run_calls toy_loc
      [Call_next; Call_getitem (PyInt (-1)); Call_counts 0; Call_iter;
       Call_next; Call_len; Call_next] toy_heap !! toy_loc = Some d' /\
    data d' = data toy /\ n_samples d' = n_samples toy /\
    modes d' = modes toy /\ n_mean d' = n_mean toy /\
    threshold d' = threshold toy /\ arrays d' = arrays toy /\
    forall l, l <> toy_loc ->
      run_calls toy_loc
        [Call_next; Call_getitem (PyInt (-1)); Call_counts 0; Call_iter;
         Call_next; Call_len; Call_next] toy_heap !! l = toy_heap !! l.
Proof.
  apply (operations_keep_attributes toy_loc
           [Call_next; Call_getitem (PyInt (-1)); Call_counts 0; Call_iter;
            Call_next; Call_len; Call_next] toy_heap toy).
  reflexivity.
Defined.

(** * Further properties *)

(** ** Integer keys, all of them *)

(** X1: indexing by an integer [k] raises [IndexError] exactly when
    [k >= n_samples] or [k < -2 * n_samples]; every other [k] returns row
    [k mod n_samples]. *)
Theorem getitem_int_characterised (h : heap) (self : loc) (d : Dataset)
    (k : Z) :
  h !! self = Some d -> constructed d ->
  __getitem__ self (PyInt k) h =
    (if (k <? - (2 * n_samples d)) || (n_samples d <=? k)
     then Raise IndexError
     else Ok (Sample (sample_at (data d) (k mod n_samples d))), h).
Proof.
  intros Hself Hd. pose proof (constructed_n_samples d Hd) as Hn.
  destruct (k <? - (2 * n_samples d)) eqn:Elow.
  { apply (getitem_far_below h self d Hself Hd). lia. }
  destruct (n_samples d <=? k) eqn:Ehigh.
  { apply (getitem_at_or_above h self d Hself Hd). lia. }
  cbn [orb].
  assert (Hpos : 0 < n_samples d) by lia.
  pose proof (Z.mod_pos_bound k (n_samples d) Hpos) as Hmod.
  destruct (csr_row_sample_at (data d) (k mod n_samples d)) as [Hrow _];
    [lia|].
  rewrite (getitem_int h self d Hself).
  destruct (Z_lt_le_dec k 0) as [Hneg|Hnn].
  - replace (k <? 0) with true by lia.
    destruct (Z_lt_le_dec k (- n_samples d)) as [Hbelow|Hinside].
    + assert (Hm : k mod n_samples d = k + 2 * n_samples d)
        by (symmetry; apply (Z.mod_unique k (n_samples d) (-2)); lia).
      rewrite csr_row_negative by lia. rewrite <- Hn.
      replace (k + n_samples d + n_samples d) with (k mod n_samples d)
        by lia.
      by rewrite Hrow.
    + assert (Hm : k mod n_samples d = k + n_samples d)
        by (symmetry; apply (Z.mod_unique k (n_samples d) (-1)); lia).
      rewrite <- Hm. by rewrite Hrow.
  - replace (k <? 0) with false by lia.
    assert (Hm : k mod n_samples d = k) by (apply Z.mod_small; lia).
    rewrite <- Hm at 1. by rewrite Hrow.
Qed.

Lemma getitem_int_characterised_witness :
  __getitem__ toy_loc (PyInt (-4)) toy_heap =
    (Ok (Sample [1; 0; 2]), toy_heap) /\
  __getitem__ toy_loc (PyInt (-5)) toy_heap = (Raise IndexError, toy_heap).
Proof.
  split.
  - apply (getitem_int_characterised toy_heap toy_loc toy (-4)).
    + reflexivity.
    + split; [repeat constructor|reflexivity].
  - apply (getitem_int_characterised toy_heap toy_loc toy (-5)).
    + reflexivity.
    + split; [repeat constructor|reflexivity].
Defined.

(** ** What indexing can return *)

Lemma csr_row_elem m i r : csr_row m i = Ok r -> r ∈ mrows m.
Proof.
  unfold csr_row, csr_getitem.
  destruct ((i <? - fst (shape m)) || (i >=? fst (shape m))); [done|].
  destruct (mrows m !! _) as [r'|] eqn:Hr; [|done].
  cbn. intros [= <-]. by eapply list_elem_of_lookup_2.
Qed.

Lemma collect_elem m idx rows :
  collect (csr_row m) idx = Ok rows -> Forall (fun r => r ∈ mrows m) rows.
Proof.
  revert rows. induction idx as [|i idx IH]; intros rows; cbn [collect].
  - intros [= <-]. constructor.
  - destruct (csr_row m i) as [r|] eqn:Hr; [|done]. cbn [rbind].
    destruct (collect (csr_row m) idx) as [rs|]; [|done]. cbn [rbind].
    intros [= <-]. constructor; [by eapply csr_row_elem|by apply IH].
Qed.

(** Whatever the key, the samples returned are rows of the data. *)
Lemma getitem_from_data (h : heap) (self : loc) (d : Dataset) key x :
  h !! self = Some d ->
  fst (__getitem__ self key h) = Ok x ->
  match x with
  | Sample r => r ∈ mrows (data d)
  | Samples rows => Forall (fun r => r ∈ mrows (data d)) rows
  end.
Proof.
  intros Hself.
  assert (Hint : forall k, fst (__getitem__ self (PyInt k) h) = Ok x ->
            match x with
            | Sample r => r ∈ mrows (data d)
            | Samples rows => Forall (fun r => r ∈ mrows (data d)) rows
            end).
  { intros k. rewrite (getitem_int h self d Hself). cbn [fst].
    destruct (csr_row _ _) as [r|] eqn:Hr; [|done]. cbn [rbind].
    intros [= <-]. by eapply csr_row_elem. }
  assert (Hslice : forall a b c,
            fst (__getitem__ self (PySlice a b c) h) = Ok x ->
            match x with
            | Sample r => r ∈ mrows (data d)
            | Samples rows => Forall (fun r => r ∈ mrows (data d)) rows
            end).
  { intros a b c. rewrite (getitem_slice h self d Hself). cbn [fst].
    destruct (slice_indices _ _ _ _) as [[[s e] st]|]; [|done].
    cbn [rbind]. destruct (py_range s e st) as [idx|]; [|done].
    cbn [rbind]. destruct (collect _ idx) as [rows|] eqn:Hrows; [|done].
    cbn [rbind]. intros [= <-]. by eapply collect_elem. }
  destruct key as [|k|b|f|s|a b c|items]; try done.
  - apply Hint.
  - rewrite (getitem_bool h self d Hself). apply Hint.
  - apply Hslice.
  - rewrite getitem_tuple.
    destruct (slice_new items) as [key|] eqn:Hkey; [|done].
    destruct (slice_new_is_slice items key Hkey) as (a & b & c & ->).
    apply Hslice.
Qed.

(** X2: every sample that indexing returns, alone or in a list, has
    [modes] entries. *)
Theorem getitem_sample_length (h : heap) (self : loc) (d : Dataset)
    (key : pyobj) (x : item) :
  h !! self = Some d -> constructed d ->
  fst (__getitem__ self key h) = Ok x ->
  match x with
  | Sample r => Z.of_nat (length r) = modes d
  | Samples rows => Forall (fun r => Z.of_nat (length r) = modes d) rows
  end.
Proof.
  intros Hself Hd Hx.
  pose proof (getitem_from_data h self d key x Hself Hx) as Hfrom.
  pose proof (constructed_modes d Hd) as Hm. destruct Hd as [Hwf _].
  unfold csr_wf in Hwf. rewrite Forall_forall in Hwf.
  destruct x as [r|rows].
  - rewrite Hm. f_equal. by apply Hwf.
  - eapply Forall_impl; [exact Hfrom|]. cbn beta. intros r Hr.
    rewrite Hm. f_equal. by apply Hwf.
Qed.

Lemma getitem_sample_length_witness :
  Forall (fun r => Z.of_nat (length r) = modes toy) [[0; 3; 4]; [1; 0; 2]].
Proof.
  apply (getitem_sample_length toy_heap toy_loc toy
           (PyTuple [PyNone; PyNone; PyInt (-1)])
           (Samples [[0; 3; 4]; [1; 0; 2]])).
  - reflexivity.
  - split; [repeat constructor|reflexivity].
  - reflexivity.
Defined.

(** ** Slices and tuples never run out of range *)

Lemma slice_index_raises o e :
  slice_index o = Raise e -> e = TypeError.
Proof. destruct o; cbn; congruence. Qed.

Lemma slice_indices_raises start stop step n e :
  0 <= n -> slice_indices start stop step n = Raise e ->
  e = TypeError \/ e = ValueError.
Proof.
  intros Hn. unfold slice_indices. replace (n <? 0) with false by lia.
  destruct (slice_index step) as [ostep|e1] eqn:E1; cbn [rbind];
    [|intros [= <-]; left; by eapply slice_index_raises].
  destruct (default 1 ostep =? 0); [intros [= <-]; by right|].
  destruct (slice_index start) as [ostart|e2] eqn:E2; cbn [rbind];
    [|intros [= <-]; left; by eapply slice_index_raises].
  destruct (slice_index stop) as [ostop|e3] eqn:E3; cbn [rbind];
    [done|intros [= <-]; left; by eapply slice_index_raises].
Qed.

Lemma range_length_slice start stop step n s e st :
  slice_indices start stop step n = Ok (s, e, st) ->
  0 <= range_length s e st <= n.
Proof.
  intros Hs. apply slice_indices_inside in Hs as (Hn & Hst & Hb).
  unfold range_length. destruct (st >? 0) eqn:Est.
  - destruct (s >=? e) eqn:Ese; [lia|].
    assert (H0 : 0 <= (e - s - 1) / st) by (apply Z.div_pos; lia).
    assert (H1 : (e - s - 1) / st <= e - s - 1)
      by (apply Z.div_le_upper_bound; nia).
    lia.
  - destruct (e >=? s) eqn:Ese; [lia|].
    assert (H0 : 0 <= (s - e - 1) / - st) by (apply Z.div_pos; lia).
    assert (H1 : (s - e - 1) / - st <= s - e - 1)
      by (apply Z.div_le_upper_bound; nia).
    lia.
Qed.

Lemma py_range_length s e st idx :
  py_range s e st = Ok idx -> length idx = Z.to_nat (range_length s e st).
Proof.
  unfold py_range. destruct (st =? 0); [done|]. intros [= <-].
  by rewrite length_map, length_seq.
Qed.

(** X3: indexing by a slice or a tuple never raises [IndexError]: it
    returns a list of at most [n_samples] samples, or raises
    [TypeError] or [ValueError]. *)
Theorem getitem_slice_in_range (h : heap) (self : loc) (d : Dataset)
    (key : pyobj) :
  h !! self = Some d -> constructed d ->
  isinstance key [Tslice; Ttuple] = true ->
  match __getitem__ self key h with
  | (Ok (Samples rows), h') =>
      h' = h /\ 0 <= Z.of_nat (length rows) <= n_samples d
  | (Ok (Sample _), _) => False
  | (Raise e, h') => h' = h /\ (e = TypeError \/ e = ValueError)
  end.
Proof.
  intros Hself Hd Hkey.
  pose proof (constructed_n_samples d Hd) as Hn.
  assert (Hslice : forall a b c,
    match __getitem__ self (PySlice a b c) h with
    | (Ok (Samples rows), h') =>
        h' = h /\ 0 <= Z.of_nat (length rows) <= n_samples d
    | (Ok (Sample _), _) => False
    | (Raise e, h') => h' = h /\ (e = TypeError \/ e = ValueError)
    end).
  { intros a b c.
    destruct (slice_indices a b c (n_samples d)) as [[[s e] st]|err] eqn:Hs.
    - destruct (getitem_slice_rows h self d a b c s e st Hself Hd Hs)
        as (idx & Hidx & _ & ->).
      split; [done|]. rewrite length_map, (py_range_length _ _ _ _ Hidx).
      pose proof (range_length_slice _ _ _ _ _ _ _ Hs). lia.
    - rewrite (getitem_slice h self d Hself), Hs. cbn [rbind].
      split; [done|]. eapply slice_indices_raises; [|exact Hs]. lia. }
  destruct key as [|k|b|f|s|a b c|items]; try done.
  - apply Hslice.
  - rewrite getitem_tuple.
    destruct (slice_new items) as [key|err] eqn:Hnew.
    + destruct (slice_new_is_slice items key Hnew) as (a & b & c & ->).
      apply Hslice.
    + split; [done|]. left.
      destruct items as [|a [|b [|c [|x rest]]]]; cbn in Hnew; congruence.
Qed.

Lemma getitem_slice_in_range_witness :
  toy_heap = toy_heap /\ 0 <= Z.of_nat (length [[0; 3; 4]]) <= n_samples toy.
Proof.
  apply (getitem_slice_in_range toy_heap toy_loc toy
           (PySlice (PyInt (-1)) (PyInt 100) PyNone)).
  - reflexivity.
  - split; [repeat constructor|reflexivity].
  - reflexivity.
Defined.

(** ** Slices as list operations *)

Lemma map_sample_at_forward m (s : Z) (len : nat) :
  0 <= s -> (Z.to_nat s + len <= length (mrows m))%nat ->
  map (sample_at m) (map (fun k : nat => s + Z.of_nat k * 1) (seq 0 len)) =
    take len (drop (Z.to_nat s) (mrows m)).
Proof.
  intros Hs Hlen. rewrite map_map. apply list_eq. intros i.
  change (map ?f ?l) with (f <$> l). rewrite list_lookup_fmap.
  destruct (decide (i < len)%nat) as [Hi|Hi].
  - rewrite lookup_seq_lt by done. cbn [fmap option_fmap option_map].
    rewrite lookup_take_lt by done. rewrite lookup_drop.
    destruct (lookup_lt_is_Some_2 (mrows m) (Z.to_nat s + i)) as [r Hr];
      [lia|].
    rewrite Hr. f_equal. apply sample_at_lookup.
    by replace (Z.to_nat (s + Z.of_nat (0 + i) * 1)) with (Z.to_nat s + i)%nat
      by lia.
  - rewrite (lookup_ge_None_2 (seq 0 len)) by (rewrite length_seq; lia).
    symmetry. apply lookup_ge_None_2. rewrite length_take. lia.
Qed.

Lemma map_sample_at_backward m :
  let n := length (mrows m) in
  map (sample_at m)
      (map (fun k : nat => (Z.of_nat n - 1) + Z.of_nat k * -1) (seq 0 n)) =
    reverse (mrows m).
Proof.
  intros n. rewrite map_map. apply list_eq. intros i.
  change (map ?f ?l) with (f <$> l). rewrite list_lookup_fmap.
  destruct (decide (i < n)%nat) as [Hi|Hi].
  - rewrite lookup_seq_lt by done. cbn [fmap option_fmap option_map].
    rewrite reverse_lookup by done.
    destruct (lookup_lt_is_Some_2 (mrows m) (length (mrows m) - S i))
      as [r Hr]; [lia|].
    rewrite Hr. f_equal. apply sample_at_lookup.
    by replace (Z.to_nat (Z.of_nat n - 1 + Z.of_nat (0 + i) * -1))
      with (length (mrows m) - S i)%nat by lia.
  - rewrite (lookup_ge_None_2 (seq 0 n)) by (rewrite length_seq; lia).
    symmetry. apply lookup_ge_None_2. rewrite length_reverse. lia.
Qed.

Lemma slice_indices_nonneg a b n :
  0 <= n -> 0 <= a -> 0 <= b ->
  slice_indices (PyInt a) (PyInt b) PyNone n =
    Ok (Z.min a n, Z.min b n, 1).
Proof.
  intros Hn Ha Hb. unfold slice_indices, clamp_bound.
  replace (n <? 0) with false by lia. cbn.
  replace (a <? 0) with false by lia. replace (b <? 0) with false by lia.
  destruct (a >? n) eqn:Ea, (b >? n) eqn:Eb; do 3 f_equal; lia.
Qed.

(** X4: for bounds [0 <= a] and [0 <= b], [self[a:b]] is the list of rows
    from [a] up to, not including, [b] -- fewer when the data ends before
    [b], none when [b <= a] or the data ends before [a]. *)
Theorem getitem_slice_take_drop (h : heap) (self : loc) (d : Dataset)
    (a b : Z) :
  h !! self = Some d -> constructed d -> 0 <= a -> 0 <= b ->
  __getitem__ self (PySlice (PyInt a) (PyInt b) PyNone) h =
    (Ok (Samples (take (Z.to_nat (b - a))
                       (drop (Z.to_nat a) (mrows (data d))))), h).
Proof.
  intros Hself Hd Ha Hb. pose proof (constructed_n_samples d Hd) as Hn.
  assert (Hs : slice_indices (PyInt a) (PyInt b) PyNone (n_samples d) =
               Ok (Z.min a (n_samples d), Z.min b (n_samples d), 1))
    by (apply slice_indices_nonneg; lia).
  destruct (getitem_slice_rows h self d _ _ _ _ _ _ Hself Hd Hs)
    as (idx & Hidx & _ & ->).
  do 3 f_equal. unfold py_range in Hidx. cbn [Z.eqb] in Hidx.
  injection Hidx as <-.
  set (s := Z.min a (n_samples d)). set (e := Z.min b (n_samples d)).
  assert (Hlen : Z.to_nat (range_length s e 1) = Z.to_nat (e - s)).
  { unfold range_length. cbn [Z.gtb Z.compare].
    destruct (s >=? e) eqn:Ese; [lia|]. rewrite Z.div_1_r. lia. }
  rewrite Hlen. rewrite map_sample_at_forward by lia.
  destruct (Z_lt_le_dec a (n_samples d)) as [Hlt|Hge].
  - replace s with a by lia.
    destruct (Z_lt_le_dec (n_samples d) b) as [Hbig|Hsmall].
    + rewrite !take_ge; [done|rewrite length_drop; lia..].
    + by replace e with b by lia.
  - rewrite !drop_ge by lia. by rewrite !take_nil.
Qed.

Lemma getitem_slice_take_drop_witness :
  __getitem__ toy_loc (PySlice (PyInt 1) (PyInt 10) PyNone) toy_heap =
    (Ok (Samples [[0; 3; 4]]), toy_heap).
Proof.
  apply (getitem_slice_take_drop toy_heap toy_loc toy 1 10).
  - reflexivity.
  - split; [repeat constructor|reflexivity].
  - lia.
  - lia.
Defined.

Lemma getitem_full_slice (h : heap) (self : loc) (d : Dataset) :
  h !! self = Some d -> constructed d ->
  __getitem__ self (PySlice PyNone PyNone PyNone) h =
    (Ok (Samples (mrows (data d))), h).
Proof.
  intros Hself Hd. pose proof (constructed_n_samples d Hd) as Hn.
  assert (Hnn : (n_samples d <? 0) = false) by lia.
  assert (Hs : slice_indices PyNone PyNone PyNone (n_samples d) =
               Ok (0, n_samples d, 1))
    by (unfold slice_indices; by rewrite Hnn).
  destruct (getitem_slice_rows h self d _ _ _ _ _ _ Hself Hd Hs)
    as (idx & Hidx & _ & ->).
  do 3 f_equal. unfold py_range in Hidx. cbn [Z.eqb] in Hidx.
  injection Hidx as <-.
  assert (Hlen : Z.to_nat (range_length 0 (n_samples d) 1) =
                 length (mrows (data d))).
  { unfold range_length. cbn [Z.gtb Z.compare].
    destruct (0 >=? n_samples d) eqn:E; [lia|]. rewrite Z.div_1_r. lia. }
  rewrite Hlen, map_sample_at_forward by (cbn; lia).
  cbn [Z.to_nat drop]. by apply take_ge.
Qed.

(** X5: [self[:]] is the list of all samples, as many as [len(self)]
    says, and [self[::-1]] is that list reversed. *)
Theorem getitem_slice_all_reversed (h : heap) (self : loc) (d : Dataset) :
  h !! self = Some d -> constructed d ->
  __getitem__ self (PySlice PyNone PyNone PyNone) h =
    (Ok (Samples (mrows (data d))), h) /\
  __getitem__ self (PySlice PyNone PyNone (PyInt (-1))) h =
    (Ok (Samples (reverse (mrows (data d)))), h) /\
  __len__ self h = (Ok (Z.of_nat (length (mrows (data d)))), h).
Proof.
  intros Hself Hd. pose proof (constructed_n_samples d Hd) as Hn.
  assert (Hnn : (n_samples d <? 0) = false) by lia.
  split; [|split].
  - by apply getitem_full_slice.
  - assert (Hs : slice_indices PyNone PyNone (PyInt (-1)) (n_samples d) =
                 Ok (n_samples d + -1, -1, -1))
      by (unfold slice_indices; by rewrite Hnn).
    destruct (getitem_slice_rows h self d _ _ _ _ _ _ Hself Hd Hs)
      as (idx & Hidx & _ & ->).
    do 3 f_equal. unfold py_range in Hidx. cbn [Z.eqb] in Hidx.
    injection Hidx as <-.
    assert (Hlen : Z.to_nat (range_length (n_samples d + -1) (-1) (-1)) =
                   length (mrows (data d))).
    { unfold range_length. cbn [Z.gtb Z.compare Z.opp].
      destruct (-1 >=? n_samples d + -1) eqn:E; [lia|].
      rewrite Z.div_1_r. lia. }
    rewrite Hlen, <- map_sample_at_backward. cbn zeta.
    by replace (n_samples d + -1)
      with (Z.of_nat (length (mrows (data d))) - 1) by lia.
  - rewrite (len_self h self d Hself). by rewrite Hn.
Qed.

Lemma getitem_slice_all_reversed_witness :
  __getitem__ toy_loc (PySlice PyNone PyNone PyNone) toy_heap =
    (Ok (Samples (mrows (data toy))), toy_heap) /\
  __getitem__ toy_loc (PySlice PyNone PyNone (PyInt (-1))) toy_heap =
    (Ok (Samples (reverse (mrows (data toy)))), toy_heap) /\
  __len__ toy_loc toy_heap = (Ok (Z.of_nat (length (mrows (data toy)))), toy_heap).
Proof.
  apply (getitem_slice_all_reversed toy_heap toy_loc toy).
  - reflexivity.
  - split; [repeat constructor|reflexivity].
Defined.

(** ** Reading does not write *)

(** X6: [__getitem__], [counts], [__len__] and [__iter__] leave the whole
    store as it was, the iteration cursor included, whether they return
    or raise. *)
Theorem reading_leaves_store (h : heap) (self : loc) (key : pyobj)
    (axis : Z) :
  snd (__getitem__ self key h) = h /\
  snd (counts self axis h) = h /\
  snd (__len__ self h) = h /\
  snd (__iter__ self h) = h.
Proof.
  split; [apply readonly_getitem|].
  split; [apply readonly_counts|].
  split; [apply readonly_len|done].
Qed.

(** ** The cursor *)

Lemma csr_row_raises m i e : csr_row m i = Raise e -> e = IndexError.
Proof.
  unfold csr_row, csr_getitem.
  destruct ((i <? - fst (shape m)) || (i >=? fst (shape m)));
    [cbn; congruence|].
  destruct (mrows m !! _); cbn; congruence.
Qed.

(** What [__next__] leaves in the store. *)
Lemma next_store (h : heap) (self : loc) (d : Dataset) :
  h !! self = Some d ->
  snd (__next__ self h) =
    <[self := with__count d (if get__count d <? n_samples d
                             then get__count d + 1 else 0)]> h.
Proof.
  intros Hself. unfold __next__, bind at 1.
  rewrite (this_self h self d Hself).
  destruct (get__count d <? n_samples d).
  - unfold bind at 1, set__count. rewrite Hself.
    apply (readonly_bind (this self)
             (fun d' => __getitem__ self (PyInt (get__count d' - 1)))).
    + apply readonly_this.
    + intros d'. apply readonly_getitem.
  - unfold bind, set__count. by rewrite Hself.
Qed.

Lemma run_call_cursor (self : loc) (c : call) (h : heap) (d : Dataset) :
  h !! self = Some d -> constructed d -> cursor_in_bounds d ->
  exists d', run_call self c h !! self = Some d' /\
             constructed d' /\ cursor_in_bounds d'.
Proof.
  intros Hself Hd Hc. destruct c as [key|axis| | |]; cbn [run_call].
  - rewrite readonly_getitem. by exists d.
  - rewrite readonly_counts. by exists d.
  - rewrite readonly_len. by exists d.
  - by exists d.
  - rewrite (next_store h self d Hself). eexists.
    split; [apply lookup_insert_eq|]. split; [done|].
    unfold cursor_in_bounds in *. cbn.
    destruct (get__count d <? n_samples d) eqn:E; cbn; lia.
Qed.

(** X7: whatever calls are made on a dataset, its cursor stays between 0
    and [n_samples], and the stored shape stays that of the data. *)
Theorem cursor_stays_in_bounds (self : loc) (cs : list call) (h : heap)
    (d : Dataset) :
  h !! self = Some d -> constructed d -> cursor_in_bounds d ->
  exists d', run_calls self cs h !! self = Some d' /\
             constructed d' /\ cursor_in_bounds d'.
Proof.
  revert h d. induction cs as [|c cs IH]; intros h d Hself Hd Hc.
  - by exists d.
  - cbn [run_calls fold_left].
    destruct (run_call_cursor self c h d Hself Hd Hc) as (d1 & H1 & Hd1 & Hc1).
    exact (IH _ d1 H1 Hd1 Hc1).
Qed.

Lemma cursor_stays_in_bounds_witness :
  exists d',
    run_calls toy_loc [Call_next; Call_next; Call_getitem (PyInt 7); Call_next;
                       Call_next] toy_heap !! toy_loc = Some d' /\
    constructed d' /\ cursor_in_bounds d'.
Proof.
  apply (cursor_stays_in_bounds toy_loc
           [Call_next; Call_next; Call_getitem (PyInt 7); Call_next; Call_next]
           toy_heap toy).
  - reflexivity.
  - split; [repeat constructor|reflexivity].
  - change (0 <= 0 <= 2). lia.
Defined.

(** X8: [StopIteration] is not final.  The call of [__next__] after the
    one that raised it returns sample 0 and moves the cursor to 1; only on
    a dataset without samples does it raise [StopIteration] again. *)
Theorem next_after_stop_restarts (h h1 : heap) (self : loc) (d : Dataset) :
  h !! self = Some d -> constructed d ->
  __next__ self h = (Raise StopIteration, h1) ->
  __next__ self h1 =
    (if 0 <? n_samples d
     then Ok (Sample (sample_at (data d) 0))
     else Raise StopIteration,
     <[self := with__count d (if 0 <? n_samples d then 1 else 0)]> h).
Proof.
  intros Hself Hd Hstop. pose proof (constructed_n_samples d Hd) as Hn.
  assert (Hh1 : h1 = <[self := with__count d 0]> h).
  { pose proof (next_store h self d Hself) as Hst. rewrite Hstop in Hst.
    cbn [snd] in Hst. rewrite Hst. do 2 f_equal.
    destruct (get__count d <? n_samples d) eqn:E; [|done]. exfalso.
    revert Hstop. unfold __next__, bind at 1.
    rewrite (this_self h self d Hself), E.
    unfold bind at 1, set__count. rewrite Hself. unfold bind at 1.
    set (d' := with__count d (get__count d + 1)).
    assert (Hself' : <[self := d']> h !! self = Some d')
      by apply lookup_insert_eq.
    rewrite (this_self _ self d' Hself'), (getitem_int _ self d' Hself').
    destruct (csr_row _ _) as [r|e] eqn:Hr; cbn [rbind]; [done|].
    apply csr_row_raises in Hr. congruence. }
  subst h1. set (d0 := with__count d 0).
  assert (Hself0 : <[self := d0]> h !! self = Some d0)
    by apply lookup_insert_eq.
  destruct (0 <? n_samples d) eqn:E.
  - destruct (csr_row_inside (data d) 0) as (r & Hr & _); [lia|].
    rewrite (next_sample _ self d0 r Hself0); [|done|done|done].
    rewrite insert_insert_eq. by rewrite (sample_at_lookup (data d) 0 r Hr).
  - rewrite (next_exhausted _ self d0 Hself0) by (cbn; lia).
    by rewrite insert_insert_eq.
Qed.

Lemma next_after_stop_restarts_witness :
  __next__ toy_loc (<[toy_loc := with__count toy 0]> toy_heap) =
    (Ok (Sample [1; 0; 2]),
     <[toy_loc := with__count toy 1]>
       (<[toy_loc := with__count toy 2]> toy_heap)).
Proof.
  apply (next_after_stop_restarts
           (<[toy_loc := with__count toy 2]> toy_heap)
           (<[toy_loc := with__count toy 0]> toy_heap)
           toy_loc (with__count toy 2)).
  - reflexivity.
  - split; [repeat constructor|reflexivity].
  - reflexivity.
Defined.

(** X9: two iterators obtained from one dataset are that dataset, and
    share its cursor: [__next__] on the first and then on the second
    returns two consecutive samples, not twice the same one. *)
Theorem iterators_share_cursor (h : heap) (self : loc) (d : Dataset) :
  h !! self = Some d -> constructed d ->
  0 <= get__count d -> get__count d + 2 <= n_samples d ->
  (it1 <- __iter__ self ;; it2 <- __iter__ self ;;
   x <- __next__ it1 ;; y <- __next__ it2 ;; ret (it1, it2, x, y)) h =
    (Ok (self, self,
         Sample (sample_at (data d) (get__count d)),
         Sample (sample_at (data d) (get__count d + 1))),
     <[self := with__count d (get__count d + 2)]> h).
Proof.
  intros Hself Hd Hc Hn. pose proof (constructed_n_samples d Hd) as Hlen.
  destruct (csr_row_inside (data d) (get__count d)) as (r0 & Hr0 & _); [lia|].
  destruct (csr_row_inside (data d) (get__count d + 1)) as (r1 & Hr1 & _);
    [lia|].
  unfold bind at 1. rewrite iter_self. unfold bind at 1. rewrite iter_self.
  unfold bind at 1. rewrite (next_sample h self d r0 Hself Hd Hc Hr0).
  set (d1 := with__count d (get__count d + 1)).
  unfold bind at 1.
  rewrite (next_sample _ self d1 r1); [|apply lookup_insert_eq|done|cbn; lia|done].
  unfold ret. rewrite insert_insert_eq.
  rewrite (sample_at_lookup _ _ _ Hr0), (sample_at_lookup _ _ _ Hr1).
  do 3 f_equal. change (get__count d1) with (get__count d + 1). lia.
Qed.

Lemma iterators_share_cursor_witness :
  (it1 <- __iter__ toy_loc ;; it2 <- __iter__ toy_loc ;;
   x <- __next__ it1 ;; y <- __next__ it2 ;; ret (it1, it2, x, y)) toy_heap =
    (Ok (toy_loc, toy_loc, Sample [1; 0; 2], Sample [0; 3; 4]),
     <[toy_loc := with__count toy 2]> toy_heap).
Proof.
  apply (iterators_share_cursor toy_heap toy_loc toy).
  - reflexivity.
  - split; [repeat constructor|reflexivity].
  - change (0 <= 0). lia.
  - change (0 + 2 <= 2). lia.
Defined.

(** ** Loops inside loops *)

Lemma drain_out_of_fuel (self : loc) (fuel : nat) :
  forall (h : heap) (d : Dataset) (j : nat),
    h !! self = Some d -> constructed d -> 0 <= get__count d ->
    (Z.to_nat (get__count d) + j = length (mrows (data d)))%nat ->
    (fuel <= j)%nat ->
    drain fuel self h = None.
Proof.
  induction fuel as [|fuel IH]; intros h d j Hself Hd Hc Hj Hfuel; [done|].
  cbn [drain].
  destruct (lookup_lt_is_Some_2 (mrows (data d)) (Z.to_nat (get__count d)))
    as [r Hr]; [lia|].
  rewrite (next_sample h self d r Hself Hd Hc Hr).
  set (d' := with__count d (get__count d + 1)).
  rewrite (IH (<[self := d']> h) d' (j - 1)%nat); [done| | | | |].
  - apply lookup_insert_eq.
  - done.
  - cbn. lia.
  - change (data d') with (data d).
    change (get__count d') with (get__count d + 1). lia.
  - lia.
Qed.

(** A loop over the dataset either runs out of fuel or leaves the cursor
    at 0. *)
Lemma drain_dichotomy (h : heap) (self : loc) (d : Dataset) (fuel : nat) :
  h !! self = Some d -> constructed d -> cursor_in_bounds d ->
  drain fuel self h = None \/
  exists ys, drain fuel self h = Some (Ok ys, <[self := with__count d 0]> h).
Proof.
  intros Hself Hd [Hc0 Hc1]. pose proof (constructed_n_samples d Hd) as Hn.
  set (j := (length (mrows (data d)) - Z.to_nat (get__count d))%nat).
  destruct (le_lt_dec fuel j) as [Hshort|Henough].
  - left. apply (drain_out_of_fuel self fuel h d j); [done|done|done|lia|done].
  - right. eexists.
    apply (drain_from_cursor self j h d); [done|done|done|lia|done].
Qed.

(** X10: on a dataset with at least one sample, a loop over the dataset
    inside a loop over the same dataset never finishes: the inner loop
    runs the shared cursor off the end, which puts it back to 0, and the
    outer loop starts over. *)
Theorem nested_loops_never_finish (fuel : nat) (h : heap) (self : loc)
    (d : Dataset) :
  h !! self = Some d -> constructed d -> get__count d = 0 ->
  1 <= n_samples d ->
  nested_loops fuel self h = None.
Proof.
  revert h d. induction fuel as [|fuel IH]; intros h d Hself Hd Hc Hn; [done|].
  pose proof (constructed_n_samples d Hd) as Hlen.
  cbn [nested_loops].
  destruct (lookup_lt_is_Some_2 (mrows (data d)) (Z.to_nat (get__count d)))
    as [r Hr]; [lia|].
  rewrite (next_sample h self d r Hself Hd) by (done || lia).
  set (d1 := with__count d (get__count d + 1)).
  assert (Hself1 : <[self := d1]> h !! self = Some d1)
    by apply lookup_insert_eq.
  unfold iterate. rewrite iter_self.
  destruct (drain_dichotomy (<[self := d1]> h) self d1 fuel Hself1)
    as [->|[ys ->]]; [done| |done|].
  { unfold cursor_in_bounds. change (get__count d1) with (get__count d + 1).
    change (n_samples d1) with (n_samples d). lia. }
  rewrite (IH _ (with__count d1 0)); [done| | | |].
  - apply lookup_insert_eq.
  - done.
  - done.
  - done.
Qed.

Lemma nested_loops_never_finish_witness :
  nested_loops 50 toy_loc toy_heap = None.
Proof.
  apply (nested_loops_never_finish 50 toy_heap toy_loc toy).
  - reflexivity.
  - split; [repeat constructor|reflexivity].
  - reflexivity.
  - change (1 <= 2). lia.
Defined.

(** ** More about counts *)

Lemma sumZ_within b l :
  Forall (fun x => 0 <= x <= b) l -> 0 <= sumZ l <= b * Z.of_nat (length l).
Proof.
  induction 1 as [|x l Hx _ IH]; cbn [sumZ fold_right length]; [lia|].
  unfold sumZ in IH. lia.
Qed.

Lemma sumZ_add_rows_exact r acc :
  length r = length acc ->
  sumZ (add_rows_exact r acc) = sumZ r + sumZ acc.
Proof.
  revert acc. induction r as [|x r IH]; intros [|y acc] Hlen;
    cbn in Hlen; try done.
  unfold add_rows_exact. cbn [zip_with sumZ fold_right].
  injection Hlen as Hlen. pose proof (IH acc Hlen) as H.
  unfold add_rows_exact, sumZ in H. rewrite H. lia.
Qed.

Lemma sumZ_replicate_zero n : sumZ (replicate n 0) = 0.
Proof. induction n as [|n IH]; [done|]. cbn. exact IH. Qed.

Lemma column_sums_exact rows nc :
  Forall (fun r => length r = nc) rows ->
  let acc := fold_right add_rows_exact (replicate nc 0) rows in
  length acc = nc /\
  forall m, (m < nc)%nat ->
    acc !! m = Some (sumZ (map (fun r => nth m r 0) rows)).
Proof.
  induction 1 as [|r rows Hr _ [IHlen IH]]; cbn [fold_right map sumZ].
  - split; [apply length_replicate|]. intros m Hm.
    apply lookup_replicate_2. done.
  - split.
    + unfold add_rows_exact at 1. rewrite length_zip_with, IHlen. lia.
    + intros m Hm. unfold add_rows_exact at 1. rewrite lookup_zip_with.
      destruct (lookup_lt_is_Some_2 r m) as [x Hx]; [lia|].
      rewrite Hx. cbn [mbind option_bind]. rewrite (IH m Hm).
      cbn [mbind option_bind]. f_equal. f_equal.
      symmetry. by apply nth_lookup_Some.
Qed.

(** Adding up by rows and adding up by columns gives the same total. *)
Lemma sumZ_column_sums_exact rows nc :
  Forall (fun r => length r = nc) rows ->
  sumZ (fold_right add_rows_exact (replicate nc 0) rows) =
    sumZ (map sumZ rows).
Proof.
  intros Hwf. induction Hwf as [|r rows Hr Hwf IH].
  - apply sumZ_replicate_zero.
  - cbn [fold_right map]. rewrite sumZ_add_rows_exact.
    + rewrite IH. done.
    + destruct (column_sums_exact rows nc Hwf) as [Hlen _].
      by rewrite Hlen.
Qed.

Lemma column_within b rows nc m :
  Forall (Forall (fun x => 0 <= x <= b)) rows ->
  Forall (fun r => length r = nc) rows -> (m < nc)%nat ->
  Forall (fun x => 0 <= x <= b) (map (fun r => nth m r 0) rows).
Proof.
  intros Hb Hwf Hm. rewrite Forall_forall in Hb. rewrite Forall_forall in Hwf.
  apply Forall_forall. intros x Hx. apply list_elem_of_In in Hx.
  apply in_map_iff in Hx as (r & <- & Hr). apply list_elem_of_In in Hr.
  pose proof (Hb r Hr) as Hbr. rewrite Forall_lookup in Hbr.
  destruct (lookup_lt_is_Some_2 r m) as [x Hx]; [rewrite (Hwf r Hr); lia|].
  rewrite (nth_lookup_Some _ _ _ _ Hx). by eapply Hbr.
Qed.

(** While the sums fit into 64 bits, the row sums are exact ... *)
Lemma row_sums_fit b rows nc :
  Forall (Forall (fun x => 0 <= x <= b)) rows ->
  Forall (fun r => length r = nc) rows ->
  b * Z.of_nat nc < 2 ^ 63 ->
  map sum64 rows = map sumZ rows.
Proof.
  intros Hb Hwf Hfit. rewrite Forall_forall in Hb.
  rewrite Forall_forall in Hwf. apply map_ext_in. intros r Hr.
  apply list_elem_of_In in Hr. rewrite sum64_wrap.
  pose proof (sumZ_within b r (Hb r Hr)) as Hsum.
  rewrite (Hwf r Hr) in Hsum. apply wrap64_small. lia.
Qed.

(** ... and so are the column sums. *)
Lemma column_sums_fit b rows nc :
  Forall (Forall (fun x => 0 <= x <= b)) rows ->
  Forall (fun r => length r = nc) rows ->
  b * Z.of_nat (length rows) < 2 ^ 63 ->
  fold_right add_rows (replicate nc 0) rows =
    fold_right add_rows_exact (replicate nc 0) rows.
Proof.
  intros Hb Hwf Hfit.
  destruct (column_sums rows nc Hwf) as [Hlen Hcol].
  destruct (column_sums_exact rows nc Hwf) as [Hlen' Hcol'].
  apply list_eq. intros m. destruct (decide (m < nc)%nat) as [Hm|Hm].
  - rewrite (Hcol m Hm), (Hcol' m Hm), sum64_wrap. f_equal.
    pose proof (sumZ_within b _ (column_within b rows nc m Hb Hwf Hm)) as Hsum.
    rewrite length_map in Hsum. apply wrap64_small. lia.
  - rewrite !lookup_ge_None_2; [done|lia|lia].
Qed.

(** X11: on a constructed dataset with entries between 0 and [b], where
    [b * modes] and [b * n_samples] are below [2^63], the counts per
    sample and the counts per mode add up to the same total. *)
Theorem counts_totals_agree (h : heap) (self : loc) (d : Dataset) (b : Z) :
  h !! self = Some d -> constructed d -> entries_within b (data d) ->
  b * modes d < 2 ^ 63 -> b * n_samples d < 2 ^ 63 ->
  exists per_sample per_mode,
    counts self 1 h = (Ok per_sample, h) /\
    counts self 0 h = (Ok per_mode, h) /\
    sumZ per_sample = sumZ per_mode.
Proof.
  intros Hself Hd Hb Hmodes Hsamples.
  pose proof (constructed_n_samples d Hd) as Hn.
  pose proof (constructed_modes d Hd) as Hm.
  destruct Hd as [Hwf _]. unfold csr_wf in Hwf. unfold entries_within in Hb.
  destruct (counts_axes h self d Hself) as [-> ->].
  eexists _, _. split; [done|]. split; [done|].
  rewrite (row_sums_fit b _ (ncols (data d)) Hb Hwf) by lia.
  rewrite (column_sums_fit b _ (ncols (data d)) Hb Hwf) by lia.
  symmetry. by apply sumZ_column_sums_exact.
Qed.

Lemma counts_totals_agree_witness :
  exists per_sample per_mode,
    counts toy_loc 1 toy_heap = (Ok per_sample, toy_heap) /\
    counts toy_loc 0 toy_heap = (Ok per_mode, toy_heap) /\
    sumZ per_sample = sumZ per_mode.
Proof.
  apply (counts_totals_agree toy_heap toy_loc toy 4).
  - reflexivity.
  - split; [repeat constructor|reflexivity].
  - repeat constructor; lia.
  - reflexivity.
  - reflexivity.
Defined.

(** X12: when every entry of the data lies between 0 and [b] (1 for
    threshold detection), and [b * modes] and [b * n_samples] are below
    [2^63], every count per sample lies between 0 and [b * modes] and every
    count per mode between 0 and [b * n_samples]. *)
Theorem counts_within_bounds (h : heap) (self : loc) (d : Dataset) (b : Z) :
  h !! self = Some d -> constructed d -> entries_within b (data d) ->
  b * modes d < 2 ^ 63 -> b * n_samples d < 2 ^ 63 ->
  exists per_sample per_mode,
    counts self 1 h = (Ok per_sample, h) /\
    Forall (fun c => 0 <= c <= b * modes d) per_sample /\
    counts self 0 h = (Ok per_mode, h) /\
    Forall (fun c => 0 <= c <= b * n_samples d) per_mode.
Proof.
  intros Hself Hd Hb Hmodes Hsamples.
  pose proof (constructed_n_samples d Hd) as Hn.
  pose proof (constructed_modes d Hd) as Hm.
  destruct Hd as [Hwf _]. unfold csr_wf in Hwf. unfold entries_within in Hb.
  destruct (counts_axes h self d Hself) as [-> ->].
  eexists _, _. split; [done|]. split; [|split; [done|]].
  - rewrite (row_sums_fit b _ (ncols (data d)) Hb Hwf) by lia.
    rewrite Forall_forall in Hb. rewrite Forall_forall in Hwf.
    apply Forall_forall. intros c Hc. apply list_elem_of_In in Hc.
    apply in_map_iff in Hc as (r & <- & Hr). apply list_elem_of_In in Hr.
    pose proof (sumZ_within b r (Hb r Hr)) as Hsum.
    rewrite (Hwf r Hr) in Hsum. by rewrite Hm.
  - rewrite (column_sums_fit b _ (ncols (data d)) Hb Hwf) by lia.
    destruct (column_sums_exact (mrows (data d)) (ncols (data d)) Hwf)
      as [Hlen Hcol].
    apply Forall_lookup. intros m c Hc.
    pose proof (lookup_lt_Some _ _ _ Hc) as Hlt. rewrite Hlen in Hlt.
    rewrite (Hcol m Hlt) in Hc. injection Hc as <-.
    pose proof (sumZ_within b _
                  (column_within b _ (ncols (data d)) m Hb Hwf Hlt)) as Hsum.
    rewrite length_map in Hsum. by rewrite Hn.
Qed.

Lemma counts_within_bounds_witness :
  exists per_sample per_mode,
    counts toy_loc 1 toy_heap = (Ok per_sample, toy_heap) /\
    Forall (fun c => 0 <= c <= 4 * modes toy) per_sample /\
    counts toy_loc 0 toy_heap = (Ok per_mode, toy_heap) /\
    Forall (fun c => 0 <= c <= 4 * n_samples toy) per_mode.
Proof.
  apply (counts_within_bounds toy_heap toy_loc toy 4).
  - reflexivity.
  - split; [repeat constructor|reflexivity].
  - repeat constructor; lia.
  - reflexivity.
  - reflexivity.
Defined.

(** ** A dataset without samples *)

(** X13: on a dataset without samples every integer key raises
    [IndexError], [self[:]] and a loop over the dataset give the empty
    list, there are no counts per sample, and the counts per mode are
    [modes] zeros. *)
Theorem empty_dataset (h : heap) (self : loc) (d : Dataset) :
  h !! self = Some d -> constructed d -> cursor_in_bounds d ->
  n_samples d = 0 ->
  (forall k, __getitem__ self (PyInt k) h = (Raise IndexError, h)) /\
  __getitem__ self (PySlice PyNone PyNone PyNone) h = (Ok (Samples []), h) /\
  (forall fuel,
     iterate (S fuel) self h = Some (Ok [], <[self := with__count d 0]> h)) /\
  counts self 1 h = (Ok [], h) /\
  counts self 0 h = (Ok (replicate (Z.to_nat (modes d)) 0), h).
Proof.
  intros Hself Hd [Hc0 Hc1] Hn0.
  pose proof (constructed_n_samples d Hd) as Hn.
  pose proof (constructed_modes d Hd) as Hm.
  assert (Hrows : mrows (data d) = []).
  { destruct (mrows (data d)); [done|]. cbn in Hn. lia. }
  split; [|split; [|split; [|split]]].
  - intros k. destruct (Z_lt_le_dec k 0).
    + apply (getitem_far_below h self d Hself Hd). lia.
    + apply (getitem_at_or_above h self d Hself Hd). lia.
  - rewrite (getitem_full_slice h self d Hself Hd). by rewrite Hrows.
  - intros fuel. unfold iterate. rewrite iter_self.
    rewrite (drain_from_cursor self 0 h d); [|done|done|done| |lia].
    + by rewrite Hrows, drop_nil.
    + rewrite Hrows. cbn. lia.
  - destruct (counts_axes h self d Hself) as [-> _]. by rewrite Hrows.
  - destruct (counts_axes h self d Hself) as [_ ->].
    by rewrite Hrows, Hm, Nat2Z.id.
Qed.

Lemma empty_dataset_witness :
  let d := Dataset__init__ Planted (mk_csr [] 3) in
  let h : heap := {[ toy_loc := d ]} in
  (forall k, __getitem__ toy_loc (PyInt k) h = (Raise IndexError, h)) /\
  __getitem__ toy_loc (PySlice PyNone PyNone PyNone) h = (Ok (Samples []), h) /\
  (forall fuel,
     iterate (S fuel) toy_loc h =
       Some (Ok [], <[toy_loc := with__count d 0]> h)) /\
  counts toy_loc 1 h = (Ok [], h) /\
  counts toy_loc 0 h = (Ok (replicate (Z.to_nat (modes d)) 0), h).
Proof.
  intros d h. apply (empty_dataset h toy_loc d).
  - reflexivity.
  - split; [constructor|reflexivity].
  - change (0 <= 0 <= 0). lia.
  - reflexivity.
Defined.

(** ** Looping and slicing agree *)

(** X14: a loop over a dataset whose cursor is at 0 produces the samples
    that [self[:]] returns, before the loop or after it. *)
Theorem iterate_is_full_slice (h : heap) (self : loc) (d : Dataset)
    (fuel : nat) :
  h !! self = Some d -> constructed d -> get__count d = 0 ->
  (Z.to_nat (n_samples d) < fuel)%nat ->
  exists rows h1,
    iterate fuel self h = Some (Ok (map Sample rows), h1) /\
    __getitem__ self (PySlice PyNone PyNone PyNone) h = (Ok (Samples rows), h) /\
    __getitem__ self (PySlice PyNone PyNone PyNone) h1 =
      (Ok (Samples rows), h1).
Proof.
  intros Hself Hd Hc Hfuel. pose proof (constructed_n_samples d Hd) as Hn.
  exists (mrows (data d)), (<[self := with__count d 0]> h).
  split; [|split].
  - unfold iterate. rewrite iter_self.
    rewrite (drain_from_cursor self (length (mrows (data d))) h d);
      [by rewrite Hc|done|done|lia|lia|lia].
  - by apply getitem_full_slice.
  - apply (getitem_full_slice _ self (with__count d 0));
      [apply lookup_insert_eq|done].
Qed.

Lemma iterate_is_full_slice_witness :
  exists rows h1,
    iterate 3 toy_loc toy_heap = Some (Ok (map Sample rows), h1) /\
    __getitem__ toy_loc (PySlice PyNone PyNone PyNone) toy_heap =
      (Ok (Samples rows), toy_heap) /\
    __getitem__ toy_loc (PySlice PyNone PyNone PyNone) h1 =
      (Ok (Samples rows), h1).
Proof.
  apply (iterate_is_full_slice toy_heap toy_loc toy 3).
  - reflexivity.
  - split; [repeat constructor|reflexivity].
  - reflexivity.
  - change (2 < 3)%nat. lia.
Defined.

(** X15: for [k >= 1], [self[-k:]] is the list of the last [k] samples,
    all of them when there are fewer than [k]. *)
Theorem getitem_slice_last (h : heap) (self : loc) (d : Dataset) (k : Z) :
  h !! self = Some d -> constructed d -> 1 <= k ->
  __getitem__ self (PySlice (PyInt (- k)) PyNone PyNone) h =
    (Ok (Samples (drop (Z.to_nat (n_samples d - k)) (mrows (data d)))), h).
Proof.
  intros Hself Hd Hk. pose proof (constructed_n_samples d Hd) as Hn.
  set (s := Z.max (n_samples d - k) 0).
  assert (Hs : slice_indices (PyInt (- k)) PyNone PyNone (n_samples d) =
               Ok (s, n_samples d, 1)).
  { unfold slice_indices, clamp_bound.
    replace (n_samples d <? 0) with false by lia. cbn.
    replace (- k <? 0) with true by lia.
    destruct (- k + n_samples d <? 0) eqn:E; do 3 f_equal; lia. }
  destruct (getitem_slice_rows h self d _ _ _ _ _ _ Hself Hd Hs)
    as (idx & Hidx & _ & ->).
  do 3 f_equal. unfold py_range in Hidx. cbn [Z.eqb] in Hidx.
  injection Hidx as <-.
  assert (Hlen : Z.to_nat (range_length s (n_samples d) 1) =
                 Z.to_nat (n_samples d - s)).
  { unfold range_length. cbn [Z.gtb Z.compare].
    destruct (s >=? n_samples d) eqn:E; [lia|]. rewrite Z.div_1_r. lia. }
  rewrite Hlen, map_sample_at_forward by lia.
  rewrite take_ge by (rewrite length_drop; lia).
  f_equal. lia.
Qed.

Lemma getitem_slice_last_witness :
  __getitem__ toy_loc (PySlice (PyInt (- 1)) PyNone PyNone) toy_heap =
    (Ok (Samples [[0; 3; 4]]), toy_heap).
Proof.
  apply (getitem_slice_last toy_heap toy_loc toy 1).
  - reflexivity.
  - split; [repeat constructor|reflexivity].
  - lia.
Defined.
